(** * Query library retrieval: vector store adapter and suggestion pipeline

    A shallow embedding of [plugins/vectorstore.py] (the [VectorStore]
    interface and its [WeaviateAdapter]) and of [plugins/weaviate.py]
    ([QueryLibraryPlugin.get_query_suggestions]).

    Python objects with methods and hidden state become records of
    state-passing functions; a call that may raise returns an [outcome];
    [try ... except Exception] is a combinator that only intercepts
    exceptions deriving from [Exception].  Every call issued to a
    collaborator is appended to a call journal, so that statements of the
    form "calls X with exactly these arguments" or "never calls X" can be
    written down. *)

From Stdlib Require Import String List ZArith Floats.
From stdpp Require Import base option gmap strings list.

Local Open Scope string_scope.
Local Open Scope Z_scope.
Local Open Scope list_scope.

(** ** Python runtime fragment *)

Module Py.

(** Root of the class hierarchy an exception object hangs from:
    [Exception] (what [except Exception] intercepts) or directly
    [BaseException] ([KeyboardInterrupt], [SystemExit],
    [asyncio.CancelledError], [GeneratorExit]). *)
Inductive exc_root : Type :=
| FromException
| FromBaseException.

Record exc : Type := Exc {
  exc_root_of : exc_root;
  exc_type : string;       (* class name *)
  exc_str : string         (* str(e) *)
}.

Definition isinstance_Exception (e : exc) : bool :=
  match exc_root_of e with
  | FromException => true
  | FromBaseException => false
  end.

Definition IndexError (msg : string) : exc := Exc FromException "IndexError" msg.

(** Result of evaluating a call. *)
Inductive outcome (A : Type) : Type :=
| Ok (a : A)
| Raise (e : exc).
Arguments Ok {A} a.
Arguments Raise {A} e.

(** Values that flow through the dictionaries handled by the code. *)
Inductive value : Type :=
| VNone
| VBool (b : bool)
| VInt (z : Z)
| VFloat (f : float)
| VStr (s : string)
| VVector (v : list float).

(** [d.get(key, default)] *)
Definition get (d : gmap string value) (key : string) (dflt : value) : value :=
  match d !! key with
  | Some v => v
  | None => dflt
  end.

(** [seq[0]] on a list. *)
Definition index0 {A : Type} (l : list A) : outcome A :=
  match l with
  | x :: _ => Ok x
  | [] => Raise (IndexError "list index out of range")
  end.

(** [hasattr(o, name)]: an attribute is either missing or bound. *)
Inductive attr (A : Type) : Type :=
| Missing
| Bound (a : A).
Arguments Missing {A}.
Arguments Bound {A} a.

(** Computations over a world [W] that may raise. *)
Definition M (W A : Type) : Type := W -> outcome A * W.

Definition ret {W A} (a : A) : M W A := fun w => (Ok a, w).

Definition bind {W A B} (m : M W A) (k : A -> M W B) : M W B :=
  fun w =>
    match m w with
    | (Ok a, w') => k a w'
    | (Raise e, w') => (Raise e, w')
    end.

Definition lift {W A} (o : outcome A) : M W A := fun w => (o, w).

Definition modify {W} (f : W -> W) : M W unit := fun w => (Ok tt, f w).

(** [try: body / except Exception as e: handler e] *)
Definition try_except_Exception {W A}
    (body : M W A) (handler : exc -> M W A) : M W A :=
  fun w =>
    match body w with
    | (Ok a, w') => (Ok a, w')
    | (Raise e, w') =>
        if isinstance_Exception e then handler e w' else (Raise e, w')
    end.

End Py.

Import Py.

Declare Scope py_scope.
Delimit Scope py_scope with py.
Notation "'let*' x ':=' m 'in' k" := (bind m (fun x => k))
  (at level 10, x name, m at level 100, k at level 200) : py_scope.
Notation "m ';;' k" := (bind m (fun _ => k))
  (at level 100, k at level 200, right associativity) : py_scope.
Local Open Scope py_scope.

(** ** The Weaviate client library, as far as the adapter uses it

    The library itself is an external collaborator: its behaviour is a
    parameter.  A client value of type [C] is the state of the backing
    database as seen through one connection.  Look-ups ([exists], [get],
    [near_vector], [iterator]) observe that state; [create], [delete],
    [insert_many] and [close] may change it.  Any of them may raise. *)

Module Weaviate.

Inductive DataType : Type := TEXT | INT | NUMBER | BOOL.

Record Property : Type := mkProperty {
  name : string;
  data_type : DataType
}.

(** [Configure.Vectorizer.*] *)
Inductive VectorizerConfig : Type :=
| Vectorizer_none
| Vectorizer_module (module_name : string).

(** [MetadataQuery(distance=...)] *)
Record MetadataQuery : Type := mkMetadataQuery { distance : bool }.

(** Metadata attached to a returned object; the [distance] attribute may
    be missing altogether, and when bound it may hold [None]. *)
Record MetadataReturn : Type := mkMetadataReturn {
  md_distance : attr (option float)
}.

Record Object : Type := mkObject {
  properties : gmap string value;
  metadata : attr (option MetadataReturn)
}.

Record QueryReturn : Type := mkQueryReturn { objects : list Object }.

(** One element of the list handed to [collection.data.insert_many]:
    the dict literal [{"properties": {...}, "vector": ...}]. *)
Record DataItem : Type := mkDataItem {
  item_properties : gmap string value;
  item_vector : value
}.

Class Client (C H : Type) : Type := {
  collections_exists : string -> C -> outcome bool;
  collections_create :
    string -> VectorizerConfig -> list Property -> C -> outcome unit * C;
  collections_delete : string -> C -> outcome unit * C;
  collections_get : string -> C -> outcome H;
  data_insert_many : H -> list DataItem -> C -> outcome unit * C;
  query_near_vector :
    H -> list float -> Z -> MetadataQuery -> C -> outcome QueryReturn;
  collection_iterator : H -> C -> outcome (list Object);
  (* the [close] attribute of the client object, when it has one *)
  client_close : attr (C -> outcome unit * C)
}.

(** Calls issued to the client, in the order they are made. *)
Inductive Call (H : Type) : Type :=
| CollectionsExists (collection_name : string)
| CollectionsCreate (collection_name : string)
    (vectorizer_config : VectorizerConfig) (props : list Property)
| CollectionsDelete (collection_name : string)
| CollectionsGet (collection_name : string)
| DataInsertMany (collection : H) (items : list DataItem)
| QueryNearVector (collection : H) (near_vector : list float)
    (limit : Z) (return_metadata : MetadataQuery)
| CollectionIterator (collection : H)
| ClientClose.
Arguments CollectionsExists {H}.
Arguments CollectionsCreate {H}.
Arguments CollectionsDelete {H}.
Arguments CollectionsGet {H}.
Arguments DataInsertMany {H}.
Arguments QueryNearVector {H}.
Arguments CollectionIterator {H}.
Arguments ClientClose {H}.

(** The calls that can change the backing store or the connection. *)
Definition is_mutation {H} (c : Call H) : bool :=
  match c with
  | CollectionsCreate _ _ _ | CollectionsDelete _
  | DataInsertMany _ _ | ClientClose => true
  | _ => false
  end.

End Weaviate.

(** ** [plugins/vectorstore.py] *)

(** The abstract [VectorStore] interface. *)
Module VectorStore.

Class t (S : Type) : Type := {
  exists_ : string -> M S bool;
  create_collection : string -> option (list Weaviate.Property) -> M S unit;
  delete_collection : string -> M S unit;
  insert_many : string -> list (gmap string value) -> M S unit;
  query_nearest :
    string -> list float -> Z -> M S (list (gmap string value));
  get_collection_iterator : string -> M S (list Weaviate.Object);
  close : M S unit
}.

End VectorStore.

(** The default adapter, bound to a Weaviate client. *)
Module WeaviateAdapter.
Import Weaviate.

(** [self]: the long-lived client, together with the journal of the
    calls made on it. *)
Record t (C H : Type) : Type := mk {
  client : C;
  journal : list (Call H)
}.
Arguments mk {C H}.
Arguments client {C H}.
Arguments journal {C H}.

Section Methods.
Context {C H : Type} {weaviate : Client C H}.

Abbreviation self := (t C H).

(** A look-up on [self.client]. *)
Definition observe {A} (call : Call H) (f : C -> outcome A) : M self A :=
  fun a => (f (client a), mk (client a) (journal a ++ [call])).

(** A call on [self.client] that may change it. *)
Definition command {A} (call : Call H) (f : C -> outcome A * C) : M self A :=
  fun a =>
    let '(r, c') := f (client a) in
    (r, mk c' (journal a ++ [call])).

Definition exists_ (collection_name : string) : M self bool :=
  observe (CollectionsExists collection_name)
          (collections_exists collection_name).

Definition default_properties : list Property :=
  [ mkProperty "title" TEXT;
    mkProperty "description" TEXT;
    mkProperty "query" TEXT ].

Definition create_collection (collection_name : string)
    (properties_schema : option (list Property)) : M self unit :=
  let* present := exists_ collection_name in
  if negb present then
    let properties :=
      match properties_schema with
      | None => default_properties
      | Some schema => schema
      end in
    command (CollectionsCreate collection_name Vectorizer_none properties)
            (collections_create collection_name Vectorizer_none properties)
  else ret tt.

Definition delete_collection (collection_name : string) : M self unit :=
  let* present := exists_ collection_name in
  if present then
    command (CollectionsDelete collection_name)
            (collections_delete collection_name)
  else ret tt.

(** Body of the loop of [insert_many]: the item appended for [it]. *)
Definition prepare (it : gmap string value) : DataItem :=
  mkDataItem
    (<["title" := get it "title" (VStr "")]>
       (<["description" := get it "description" (VStr "")]>
          (<["query" := get it "query" (VStr "")]> ∅)))
    (get it "vector" VNone).

(** [acc = []; for x in xs: acc.append(f x)] *)
Definition collect {A B} (f : A -> B) (xs : list A) : list B :=
  fold_left (fun acc x => acc ++ [f x]) xs [].

Definition insert_many (collection_name : string)
    (items : list (gmap string value)) : M self unit :=
  let* present := exists_ collection_name in
  (if negb present then create_collection collection_name None else ret tt) ;;
  let* collection :=
    observe (CollectionsGet collection_name)
            (collections_get collection_name) in
  let prepared := collect prepare items in
  command (DataInsertMany collection prepared)
          (data_insert_many collection prepared).

(** The conditional expression computing the ["distance"] entry. *)
Definition distance_of (obj : Object) : option float :=
  match metadata obj with
  | Bound (Some md) =>
      match md_distance md with
      | Bound d => d
      | Missing => None
      end
  | Bound None => None
  | Missing => None
  end.

Definition distance_value (d : option float) : value :=
  match d with
  | Some f => VFloat f
  | None => VNone
  end.

(** Body of the loop of [query_nearest]: the dict appended for [obj]. *)
Definition search_result (obj : Object) : gmap string value :=
  let props := properties obj in
  <["title" := get props "title" (VStr "")]>
    (<["description" := get props "description" (VStr "")]>
       (<["query" := get props "query" (VStr "")]>
          (<["distance" := distance_value (distance_of obj)]> ∅))).

Definition query_nearest (collection_name : string)
    (vector : list float) (limit : Z) : M self (list (gmap string value)) :=
  let* queries_collection :=
    observe (CollectionsGet collection_name)
            (collections_get collection_name) in
  let return_metadata := mkMetadataQuery true in
  let* result :=
    observe (QueryNearVector queries_collection vector limit return_metadata)
            (query_near_vector queries_collection vector limit
                               return_metadata) in
  ret (collect search_result (objects result)).

Definition get_collection_iterator (collection_name : string)
    : M self (list Object) :=
  let* collection :=
    observe (CollectionsGet collection_name)
            (collections_get collection_name) in
  observe (CollectionIterator collection) (collection_iterator collection).

Definition close : M self unit :=
  match client_close with
  | Bound release =>
      try_except_Exception (command ClientClose release) (fun _ => ret tt)
  | Missing => ret tt
  end.

#[global] Instance vector_store : VectorStore.t self := {|
  VectorStore.exists_ := exists_;
  VectorStore.create_collection := create_collection;
  VectorStore.delete_collection := delete_collection;
  VectorStore.insert_many := insert_many;
  VectorStore.query_nearest := query_nearest;
  VectorStore.get_collection_iterator := get_collection_iterator;
  VectorStore.close := close
|}.

End Methods.

End WeaviateAdapter.

(** ** [plugins/weaviate.py] *)

(** Modelled from the spec: [plugins/model.py] is not part of the sources;
    a [DashboardQuery] carries an identifier, a title, a description and
    the query text, and is built from keyword arguments without checks. *)
Module DashboardQuery.

Record t : Type := mk {
  id : value;
  title : value;
  description : value;
  query : value
}.

End DashboardQuery.

(** The two dict shapes [get_query_suggestions] returns: [{"queries": qs}]
    has no ["error"] key, [{"error": msg, "queries": []}] has one. *)
Module QuerySuggestionResponse.

Record t : Type := mk {
  error : option string;
  queries : list DashboardQuery.t
}.

End QuerySuggestionResponse.

(** Modelled from the spec: [plugins/embeddings.py] is not part of the
    sources; [get_embedding(text)] yields a sequence of vectors or raises. *)
Module EmbeddingsClient.

Class t (E : Type) : Type := {
  get_embedding : string -> M E (list (list float))
}.

End EmbeddingsClient.

Module QueryLibraryPlugin.

(** Calls made on the two collaborators, each with what it answered. *)
Inductive Event : Type :=
| GetEmbedding (text : string) (answer : outcome (list (list float)))
| Exists (collection_name : string) (answer : outcome bool)
| QueryNearest (collection_name : string) (vector : list float) (limit : Z)
    (answer : outcome (list (gmap string value))).

(** What is handed to [self.logger]; the interpolated values are kept as
    fields instead of being rendered into one string. *)
Inductive LogRecord : Type :=
| InfoSearching (query_purpose : string) (joined_keywords : string)
| InfoCandidate (title description : value) (distance : value)
| ErrorSearching (message : string).

Record t (E S : Type) : Type := mk {
  embeddings_client : E;
  vectorstore : S;
  logger : list LogRecord;
  journal : list Event
}.
Arguments mk {E S}.
Arguments embeddings_client {E S}.
Arguments vectorstore {E S}.
Arguments logger {E S}.
Arguments journal {E S}.

Section Methods.
Context {E S : Type} {embeddings : EmbeddingsClient.t E}
  {store : VectorStore.t S}.

(** Modelled from the spec: [plugins/config.py] is not part of the
    sources; [COLLECTION_NAME] is the configured collection name. *)
Variable COLLECTION_NAME : string.

Abbreviation self := (t E S).

Definition log (r : LogRecord) : M self unit :=
  modify (fun p =>
    mk (embeddings_client p) (vectorstore p) (logger p ++ [r]) (journal p)).

(** [await self.embeddings_client.get_embedding(text)] *)
Definition call_get_embedding (text : string) : M self (list (list float)) :=
  fun p =>
    let '(r, e') := EmbeddingsClient.get_embedding text (embeddings_client p) in
    (r, mk e' (vectorstore p) (logger p) (journal p ++ [GetEmbedding text r])).

(** [self.vectorstore.exists(name)] *)
Definition call_exists (collection_name : string) : M self bool :=
  fun p =>
    let '(r, s') := VectorStore.exists_ collection_name (vectorstore p) in
    (r, mk (embeddings_client p) s' (logger p)
           (journal p ++ [Exists collection_name r])).

(** [self.vectorstore.query_nearest(name, vector, limit=limit)] *)
Definition call_query_nearest (collection_name : string)
    (vector : list float) (limit : Z) : M self (list (gmap string value)) :=
  fun p =>
    let '(r, s') :=
      VectorStore.query_nearest collection_name vector limit (vectorstore p) in
    (r, mk (embeddings_client p) s' (logger p)
           (journal p ++ [QueryNearest collection_name vector limit r])).

Definition dashboard_query_of (obj : gmap string value) : DashboardQuery.t :=
  DashboardQuery.mk
    (get obj "id" (VStr ""))
    (get obj "title" (VStr ""))
    (get obj "description" (VStr ""))
    (get obj "query" (VStr "")).

(** The [for obj in result] loop, threading the [queries] list. *)
Fixpoint format_results (result : list (gmap string value))
    (queries : list DashboardQuery.t) : M self (list DashboardQuery.t) :=
  match result with
  | [] => ret queries
  | obj :: rest =>
      let dashboard_query := dashboard_query_of obj in
      let queries := queries ++ [dashboard_query] in
      log (InfoCandidate (DashboardQuery.title dashboard_query)
                         (DashboardQuery.description dashboard_query)
                         (get obj "distance" VNone)) ;;
      format_results rest queries
  end.

Definition missing_collection_message : string :=
  ("Collection '" ++ COLLECTION_NAME
     ++ "' does not exist, please make sure to populate it with query examples."
  )%string.

Definition error_response (message : string) : QuerySuggestionResponse.t :=
  QuerySuggestionResponse.mk (Some message) [].

Definition get_query_suggestions (query_purpose : string)
    (keywords : list string) : M self QuerySuggestionResponse.t :=
  log (InfoSearching query_purpose (String.concat ", " keywords)) ;;
  try_except_Exception
    (let* embedded_question := call_get_embedding query_purpose in
     let* present := call_exists COLLECTION_NAME in
     if negb present then
       ret (error_response missing_collection_message)
     else
       let* vector := lift (index0 embedded_question) in
       let* result := call_query_nearest COLLECTION_NAME vector 3 in
       let* queries := format_results result [] in
       ret (QuerySuggestionResponse.mk None queries))
    (fun e =>
       log (ErrorSearching (exc_str e)) ;;
       ret (error_response (exc_str e))).

End Methods.

End QueryLibraryPlugin.

(** ** Concrete collaborators

    A small in-memory database behind the client interface, and
    embedding clients with a fixed answer.  They serve as instances on
    which the general statements below are evaluated. *)

Module InMemory.
Import Weaviate.

Record Db : Type := mkDb {
  collections : gmap string (list Object);
  releases : nat        (* how often the connection was released *)
}.

Definition already_exists : exc :=
  Exc FromException "UnexpectedStatusCodeError" "collection already exists".

Definition no_such_collection : exc :=
  Exc FromException "WeaviateQueryError" "no such collection".

Definition stored (it : DataItem) : Object :=
  mkObject (item_properties it) Missing.

Definition db_exists (n : string) (db : Db) : outcome bool :=
  match collections db !! n with
  | Some _ => Ok true
  | None => Ok false
  end.

Definition db_create (n : string) (_ : VectorizerConfig) (_ : list Property)
    (db : Db) : outcome unit * Db :=
  match collections db !! n with
  | Some _ => (Raise already_exists, db)
  | None => (Ok tt, mkDb (<[n := []]> (collections db)) (releases db))
  end.

Definition db_delete (n : string) (db : Db) : outcome unit * Db :=
  (Ok tt, mkDb (delete n (collections db)) (releases db)).

Definition db_insert_many (h : string) (items : list DataItem) (db : Db)
    : outcome unit * Db :=
  match collections db !! h with
  | Some objs =>
      (Ok tt, mkDb (<[h := objs ++ map stored items]> (collections db))
                   (releases db))
  | None => (Raise no_such_collection, db)
  end.

Definition db_near_vector (h : string) (_ : list float) (limit : Z)
    (_ : MetadataQuery) (db : Db) : outcome QueryReturn :=
  match collections db !! h with
  | Some objs => Ok (mkQueryReturn (take (Z.to_nat limit) objs))
  | None => Raise no_such_collection
  end.

Definition db_iterator (h : string) (db : Db) : outcome (list Object) :=
  match collections db !! h with
  | Some objs => Ok objs
  | None => Raise no_such_collection
  end.

Definition db_close (db : Db) : outcome unit * Db :=
  (Ok tt, mkDb (collections db) (S (releases db))).

#[global] Instance db_client : Client Db string := {|
  collections_exists := db_exists;
  collections_create := db_create;
  collections_delete := db_delete;
  collections_get := fun n _ => Ok n;
  data_insert_many := db_insert_many;
  query_near_vector := db_near_vector;
  collection_iterator := db_iterator;
  client_close := Bound db_close
|}.

Definition keyboard_interrupt : exc :=
  Exc FromBaseException "KeyboardInterrupt" "".

Definition connection_reset : exc :=
  Exc FromException "ConnectionResetError" "connection reset by peer".

(** The same database behind a connection whose release fails with [e]. *)
Definition failing_close (e : exc) : Client Db string := {|
  collections_exists := db_exists;
  collections_create := db_create;
  collections_delete := db_delete;
  collections_get := fun n _ => Ok n;
  data_insert_many := db_insert_many;
  query_near_vector := db_near_vector;
  collection_iterator := db_iterator;
  client_close := Bound (fun db => (Raise e, db))
|}.

Definition with_distance (t d q : string) (dist : float) : Object :=
  mkObject
    (<["title" := VStr t]> (<["description" := VStr d]> (<["query" := VStr q]> ∅)))
    (Bound (Some (mkMetadataReturn (Bound (Some dist))))).

Definition empty_db : Db := mkDb ∅ 0.

(** A database whose collection ["queries"] answers with three objects,
    the last one without metadata. *)
Definition sample_db : Db :=
  mkDb
    (<["queries" :=
         [ with_distance "vm count" "number of machines" "Resources | count" 0.125;
           with_distance "subs" "subscriptions" "ResourceContainers | count" 0.5;
           mkObject (<["title" := VStr "bare"]> ∅) (Bound None) ]]> ∅)
    0.

Definition question : list float := [0.75%float; 0.25%float].

Definition bare_item : gmap string value := ∅.

Definition titled_item : gmap string value :=
  <["title" := VStr "vm count"]> (<["vector" := VVector question]> ∅).

Definition adapter (db : Db) : WeaviateAdapter.t Db string :=
  WeaviateAdapter.mk db [].

(** Embedding clients without state. *)
Definition answering (vectors : list (list float)) : EmbeddingsClient.t unit :=
  {| EmbeddingsClient.get_embedding := fun _ u => (Ok vectors, u) |}.

Definition raising (e : exc) : EmbeddingsClient.t unit :=
  {| EmbeddingsClient.get_embedding := fun _ u => (Raise e, u) |}.

Definition cancelled_error : exc :=
  Exc FromBaseException "CancelledError" "".

Definition timeout_error : exc :=
  Exc FromException "TimeoutError" "embedding request timed out".

Definition plugin (db : Db) : QueryLibraryPlugin.t unit (WeaviateAdapter.t Db string) :=
  QueryLibraryPlugin.mk tt (adapter db) [] [].

End InMemory.

(** ** [codebase_rag/providers/base.py] *)

(** A [dict] with string keys: Python keeps the keys in insertion order,
    and assigning to a key that is present keeps its position. *)
Module PyDict.

Definition t (V : Type) : Type := list (string * V).

(** [d[k]], [None] standing for [KeyError] *)
Fixpoint getitem {V} (d : t V) (k : string) : option V :=
  match d with
  | [] => None
  | (k', v) :: d' => if String.eqb k' k then Some v else getitem d' k
  end.

(** [k in d] *)
Definition contains {V} (d : t V) (k : string) : bool :=
  match getitem d k with
  | Some _ => true
  | None => false
  end.

(** [d[k] = v] *)
Fixpoint setitem {V} (d : t V) (k : string) (v : V) : t V :=
  match d with
  | [] => [(k, v)]
  | (k', v') :: d' =>
      if String.eqb k' k then (k', v) :: d' else (k', v') :: setitem d' k v
  end.

(** [d.keys()] *)
Definition keys {V} (d : t V) : list string := fst <$> d.

End PyDict.

Module Providers.

Definition ValueError (msg : string) : exc := Exc FromException "ValueError" msg.

Definition KeyError (key : string) : exc := Exc FromException "KeyError" key.

(** [bool(v)] *)
Definition truthy (v : value) : bool :=
  match v with
  | VNone => false
  | VBool b => b
  | VInt z => negb (z =? 0)
  | VFloat f => negb (PrimFloat.eqb f 0)
  | VStr s => negb (String.eqb s "")
  | VVector l => match l with [] => false | _ :: _ => true end
  end.

(** Sequencing of calls that may raise, without state. *)
Definition and_then {A B} (o : outcome A) (k : A -> outcome B) : outcome B :=
  match o with
  | Ok a => k a
  | Raise e => Raise e
  end.

(** The two [pydantic_ai] constructors [create_model] calls; the library
    is external, so what they build (or raise) is a parameter. *)
Class PydanticAI (P Mdl : Type) : Type := {
  (* AzureProvider(azure_endpoint=, api_version=, api_key=) *)
  AzureProvider : value -> string -> value -> outcome P;
  (* OpenAIChatModel(model_name, provider=) *)
  OpenAIChatModel : string -> P -> outcome Mdl
}.

Module AzureOpenAIProvider.

Record t : Type := mk {
  config : gmap string value;     (* set by [ModelProvider.__init__] *)
  api_key : value;
  endpoint : value
}.

(** [__init__(self, api_key=None, endpoint=None, **kwargs)] *)
Definition init (api_key endpoint : value) (kwargs : gmap string value) : t :=
  mk kwargs api_key endpoint.

Definition provider_name (self : t) : string := "azureopenai".

Definition missing_api_key_message : string :=
  ("OpenAI provider requires api_key. "
     ++ "Set ORCHESTRATOR_API_KEY or CYPHER_API_KEY in .env file.")%string.

Definition validate_config (self : t) : outcome unit :=
  if negb (truthy (api_key self)) then
    Raise (ValueError missing_api_key_message)
  else Ok tt.

Definition create_model {P Mdl : Type} {pydantic_ai : PydanticAI P Mdl}
    (self : t) (model_id : string) (kwargs : gmap string value)
    : outcome Mdl :=
  and_then (validate_config self) (fun _ =>
  and_then (AzureProvider (endpoint self) "2024-12-01-preview" (api_key self))
    (fun provider =>
  OpenAIChatModel "gpt-5-mini" provider)).

End AzureOpenAIProvider.

(** Classes that can sit in the registry: the one this module defines, or
    any other subclass of [ModelProvider], drawn from [K]. *)
Inductive provider_class (K : Type) : Type :=
| AzureOpenAIProvider_class
| Subclass (k : K).
Arguments AzureOpenAIProvider_class {K}.
Arguments Subclass {K} k.

(** Instances of those classes. *)
Inductive provider (U : Type) : Type :=
| AzureOpenAIProvider_instance (p : AzureOpenAIProvider.t)
| Subclass_instance (u : U).
Arguments AzureOpenAIProvider_instance {U} p.
Arguments Subclass_instance {U} u.

(** What calling a class of [K] with keyword arguments gives. *)
Class Subclasses (K U : Type) : Type := {
  construct : K -> gmap string value -> outcome U
}.

(** Module state: the registry dict and what went to the [loguru] logger. *)
Record World (K : Type) : Type := mkWorld {
  PROVIDER_REGISTRY : PyDict.t (provider_class K);
  logged : list string
}.
Arguments mkWorld {K}.
Arguments PROVIDER_REGISTRY {K}.
Arguments logged {K}.

(** The module as first imported. *)
Definition initial {K : Type} : World K :=
  mkWorld [("azureopenai", AzureOpenAIProvider_class)] [].

Section Functions.
Context {K U : Type} {subclasses : Subclasses K U}.

(** Calling a class with the dict [config] spread as keyword
    arguments: for [AzureOpenAIProvider] the keys
    [api_key] and [endpoint] bind to the named parameters and the rest
    goes to [**kwargs]. *)
Definition call_class (cls : provider_class K) (config : gmap string value)
    : outcome (provider U) :=
  match cls with
  | AzureOpenAIProvider_class =>
      Ok (AzureOpenAIProvider_instance
            (AzureOpenAIProvider.init
               (get config "api_key" VNone)
               (get config "endpoint" VNone)
               (delete "api_key" (delete "endpoint" config))))
  | Subclass k =>
      and_then (construct k config) (fun u => Ok (Subclass_instance u))
  end.

Definition unknown_provider_message (provider_name : string)
    (available : string) : string :=
  ("Unknown provider '" ++ provider_name ++ "'. Available providers: "
     ++ available)%string.

Definition get_provider (provider_name : string)
    (config : gmap string value) : M (World K) (provider U) :=
  fun w =>
    if negb (PyDict.contains (PROVIDER_REGISTRY w) provider_name) then
      let available := String.concat ", " (PyDict.keys (PROVIDER_REGISTRY w)) in
      (Raise (ValueError (unknown_provider_message provider_name available)), w)
    else
      match PyDict.getitem (PROVIDER_REGISTRY w) provider_name with
      | Some provider_class => (call_class provider_class config, w)
      | None => (Raise (KeyError provider_name), w)
      end.

Definition register_provider (name : string)
    (provider_class : provider_class K) : M (World K) unit :=
  fun w =>
    (Ok tt,
     mkWorld (PyDict.setitem (PROVIDER_REGISTRY w) name provider_class)
             (logged w ++ [("Registered provider: " ++ name)%string])).

Definition list_providers : M (World K) (list string) :=
  fun w => (Ok (PyDict.keys (PROVIDER_REGISTRY w)), w).

(** The module state after a sequence of [register_provider] calls. *)
Definition after_registrations
    (calls : list (string * provider_class K)) (w : World K) : World K :=
  fold_left (fun w call => snd (register_provider (fst call) (snd call) w))
            calls w.

End Functions.

End Providers.

(** Stand-ins for the [pydantic_ai] constructors and for a second
    provider class, to evaluate the statements on. *)
Module ProvidersInMemory.
Import Providers.

Record AzureSettings : Type := mkAzureSettings {
  azure_endpoint : value;
  api_version : string;
  settings_api_key : value
}.

Record ChatModel : Type := mkChatModel {
  model_name : string;
  model_provider : AzureSettings
}.

#[global] Instance recording : PydanticAI AzureSettings ChatModel := {|
  AzureProvider := fun endpoint version key =>
    Ok (mkAzureSettings endpoint version key);
  OpenAIChatModel := fun name provider => Ok (mkChatModel name provider)
|}.

(** One further provider class, which keeps the keyword arguments it is
    called with and refuses an empty set of them. *)
Inductive OtherClass : Type := LocalProvider.

#[global] Instance other_classes
    : Subclasses OtherClass (gmap string value) := {|
  construct := fun _ config =>
    if decide (config = ∅)
    then Raise (Exc FromException "TypeError" "no arguments")
    else Ok config
|}.

(** The module as first imported, for the classes above. *)
Definition fresh_module : World OtherClass := initial.

Definition with_key : gmap string value :=
  <["api_key" := VStr "secret"]>
    (<["endpoint" := VStr "https://example.openai.azure.com"]>
       (<["timeout" := VInt 30]> ∅)).

End ProvidersInMemory.

(** A vector store that answers every search with the same four records,
    whatever the limit, and counts the searches it served. *)
Module Canned.

Definition records : list (gmap string value) :=
  [ <["id" := VStr "q-1"]> (<["title" := VStr "vm count"]> ∅);
    <["id" := VInt 2]> (<["distance" := VFloat 0.5]> ∅);
    ∅;
    <["query" := VStr "Resources | count"]> ∅ ].

#[global] Instance store : VectorStore.t nat := {|
  VectorStore.exists_ := fun _ n => (Ok true, n);
  VectorStore.create_collection := fun _ _ n => (Ok tt, n);
  VectorStore.delete_collection := fun _ n => (Ok tt, n);
  VectorStore.insert_many := fun _ _ n => (Ok tt, n);
  VectorStore.query_nearest := fun _ _ _ n => (Ok records, S n);
  VectorStore.get_collection_iterator := fun _ n => (Ok [], n);
  VectorStore.close := fun n => (Ok tt, n)
|}.

Definition plugin : QueryLibraryPlugin.t unit nat :=
  QueryLibraryPlugin.mk tt 0%nat [] [].

Definition purpose : string := "count of subscriptions".

Definition keywords : list string := ["subscriptions"; "count"].

End Canned.

(** The in-memory database behind a connection on which chosen calls
    fail. *)
Module Faulty.
Import Weaviate InMemory.

Record Faults : Type := mkFaults {
  exists_fails : bool;
  create_fails : bool;
  get_fails : bool
}.

Definition connection_refused : exc :=
  Exc FromException "WeaviateConnectionError" "connection refused".

Definition client (f : Faults) : Client Db string := {|
  collections_exists := fun n db =>
    if exists_fails f then Raise connection_refused else db_exists n db;
  collections_create := fun n v ps db =>
    if create_fails f then (Raise connection_refused, db)
    else db_create n v ps db;
  collections_delete := db_delete;
  collections_get := fun n _ =>
    if get_fails f then Raise connection_refused else Ok n;
  data_insert_many := db_insert_many;
  query_near_vector := db_near_vector;
  collection_iterator := db_iterator;
  client_close := Bound db_close
|}.

End Faulty.

(** ** Vocabulary of the statements *)

Module Spec.
Import Weaviate.

(** The backing store reports distance [d] for [obj]. *)
Definition reported_distance (obj : Object) (d : float) : Prop :=
  exists md, metadata obj = Bound (Some md) /\ md_distance md = Bound (Some d).

(** Objects as the store delivers them, closest first: neighbours that
    both report a distance are in non-decreasing order. *)
Definition delivered_ascending (objs : list Object) : Prop :=
  forall (i : nat) o1 o2 d1 d2,
    objs !! i = Some o1 -> objs !! S i = Some o2 ->
    reported_distance o1 d1 -> reported_distance o2 d2 ->
    PrimFloat.leb d1 d2 = true.

(** The same for the dicts [query_nearest] returns. *)
Definition results_ascending (out : list (gmap string value)) : Prop :=
  forall (i : nat) (r1 r2 : gmap string value) d1 d2,
    out !! i = Some r1 -> out !! S i = Some r2 ->
    r1 !! "distance" = Some (VFloat d1) -> r2 !! "distance" = Some (VFloat d2) ->
    PrimFloat.leb d1 d2 = true.

Definition is_create {H} (c : Call H) : bool :=
  match c with
  | CollectionsCreate _ _ _ => true
  | _ => false
  end.

Definition is_query_nearest (ev : QueryLibraryPlugin.Event) : bool :=
  match ev with
  | QueryLibraryPlugin.QueryNearest _ _ _ _ => true
  | _ => false
  end.

(** The record logged for one candidate. *)
Definition candidate_record (obj : gmap string value)
    : QueryLibraryPlugin.LogRecord :=
  QueryLibraryPlugin.InfoCandidate
    (get obj "title" (VStr "")) (get obj "description" (VStr ""))
    (get obj "distance" VNone).

(** Collaborators whose failures all derive from [Exception]. *)
Definition embedding_raises_Exception_only (E : Type)
    {embeddings : EmbeddingsClient.t E} : Prop :=
  forall text (s : E) e s',
    EmbeddingsClient.get_embedding text s = (Raise e, s') ->
    isinstance_Exception e = true.

Definition store_raises_Exception_only (S : Type)
    {store : VectorStore.t S} : Prop :=
  (forall name (s : S) e s',
     VectorStore.exists_ name s = (Raise e, s') ->
     isinstance_Exception e = true)
  /\ (forall name vector limit (s : S) e s',
        VectorStore.query_nearest name vector limit s = (Raise e, s') ->
        isinstance_Exception e = true).

End Spec.

(** ** The adapter *)

Module AdapterFacts.
Import Weaviate WeaviateAdapter Spec.

Section WithClient.
Context {C H : Type} {weaviate : Client C H}.

Lemma collect_from {A B} (f : A -> B) (xs : list A) (acc : list B) :
  fold_left (fun acc x => acc ++ [f x]) xs acc = acc ++ (f <$> xs).
Proof.
  revert acc; induction xs as [|x xs IH]; intros acc; simpl.
  - now rewrite app_nil_r.
  - rewrite IH, <- app_assoc. reflexivity.
Qed.

Lemma collect_fmap {A B} (f : A -> B) (xs : list A) :
  collect f xs = f <$> xs.
Proof. unfold collect. now rewrite collect_from. Qed.

Lemma search_result_title obj :
  search_result obj !! "title" = Some (get (properties obj) "title" (VStr "")).
Proof. unfold search_result. now rewrite lookup_insert_eq. Qed.

Lemma search_result_description obj :
  search_result obj !! "description"
  = Some (get (properties obj) "description" (VStr "")).
Proof.
  unfold search_result.
  rewrite lookup_insert_ne by done. now rewrite lookup_insert_eq.
Qed.

Lemma search_result_query obj :
  search_result obj !! "query" = Some (get (properties obj) "query" (VStr "")).
Proof.
  unfold search_result.
  do 2 (rewrite lookup_insert_ne by done). now rewrite lookup_insert_eq.
Qed.

Lemma search_result_distance obj :
  search_result obj !! "distance" = Some (distance_value (distance_of obj)).
Proof.
  unfold search_result.
  do 3 (rewrite lookup_insert_ne by done). now rewrite lookup_insert_eq.
Qed.

Lemma search_result_keys obj (k : string) :
  is_Some (search_result obj !! k)
  <-> k = "title" \/ k = "description" \/ k = "query" \/ k = "distance".
Proof.
  unfold search_result. rewrite !lookup_insert_is_Some, lookup_empty.
  split.
  - intros [->|[_ [->|[_ [->|[_ [->|[_ [x Hx]]]]]]]]]; auto. discriminate.
  - intros [->|[->|[->| ->]]].
    + now left.
    + right; split; [done|]. now left.
    + right; split; [done|]. right; split; [done|]. now left.
    + right; split; [done|]. right; split; [done|]. right; split; [done|].
      now left.
Qed.

Lemma distance_of_reported obj d :
  reported_distance obj d -> distance_of obj = Some d.
Proof.
  intros (md & Hm & Hd). unfold distance_of. now rewrite Hm, Hd.
Qed.

Lemma distance_of_Some obj d :
  distance_of obj = Some d -> reported_distance obj d.
Proof.
  unfold distance_of, reported_distance.
  destruct (metadata obj) as [|[md|]] eqn:Hm; try discriminate.
  destruct (md_distance md) as [|d'] eqn:Hd; try discriminate.
  intros ->. now exists md.
Qed.

Lemma query_nearest_run (a : t C H) name vector k h res :
  collections_get name (client a) = Ok h ->
  query_near_vector h vector k (mkMetadataQuery true) (client a) = Ok res ->
  query_nearest name vector k a
  = (Ok (search_result <$> objects res),
     mk (client a)
        (journal a ++ [CollectionsGet name;
                       QueryNearVector h vector k (mkMetadataQuery true)])).
Proof.
  intros Hget Hq.
  unfold query_nearest, observe, bind, ret; simpl.
  rewrite Hget; simpl. rewrite Hq; simpl.
  now rewrite collect_fmap, <- app_assoc.
Qed.

(** *** Symbolic runs of the lifecycle methods *)

Lemma create_collection_present (a : t C H) name schema :
  collections_exists name (client a) = Ok true ->
  create_collection name schema a
  = (Ok tt, mk (client a) (journal a ++ [CollectionsExists name])).
Proof.
  intros Hex. unfold create_collection, exists_, observe, bind, ret; simpl.
  now rewrite Hex.
Qed.

Lemma create_collection_absent (a : t C H) name schema :
  collections_exists name (client a) = Ok false ->
  let properties :=
    match schema with None => default_properties | Some s => s end in
  let created := collections_create name Vectorizer_none properties (client a) in
  create_collection name schema a
  = (fst created,
     mk (snd created)
        (journal a ++ [CollectionsExists name;
                       CollectionsCreate name Vectorizer_none properties])).
Proof.
  intros Hex. unfold create_collection, exists_, observe, command, bind; simpl.
  rewrite Hex; simpl.
  destruct (collections_create _ _ _ _) as [r c']; simpl.
  now rewrite <- app_assoc.
Qed.

Lemma create_collection_raises (a : t C H) name schema e :
  collections_exists name (client a) = Raise e ->
  create_collection name schema a
  = (Raise e, mk (client a) (journal a ++ [CollectionsExists name])).
Proof.
  intros Hex. unfold create_collection, exists_, observe, bind; simpl.
  now rewrite Hex.
Qed.

Lemma delete_collection_absent (a : t C H) name :
  collections_exists name (client a) = Ok false ->
  delete_collection name a
  = (Ok tt, mk (client a) (journal a ++ [CollectionsExists name])).
Proof.
  intros Hex. unfold delete_collection, exists_, observe, bind, ret; simpl.
  now rewrite Hex.
Qed.

Lemma close_without_attribute (a : t C H) :
  client_close = Missing -> close a = (Ok tt, a).
Proof. intros Hc. unfold close. now rewrite Hc. Qed.

Lemma close_with_attribute (a : t C H) release :
  client_close = Bound release ->
  close a
  = (match fst (release (client a)) with
     | Ok u => Ok u
     | Raise e => if isinstance_Exception e then Ok tt else Raise e
     end,
     mk (snd (release (client a))) (journal a ++ [ClientClose])).
Proof.
  intros Hc. unfold close, try_except_Exception, command, ret. rewrite Hc.
  destruct (release (client a)) as [[u|e] c']; simpl; [reflexivity|].
  now destruct (isinstance_Exception e).
Qed.

Lemma insert_many_present (a : t C H) name items h :
  collections_exists name (client a) = Ok true ->
  collections_get name (client a) = Ok h ->
  let inserted := data_insert_many h (prepare <$> items) (client a) in
  insert_many name items a
  = (fst inserted,
     mk (snd inserted)
        (journal a ++ [CollectionsExists name; CollectionsGet name;
                       DataInsertMany h (prepare <$> items)])).
Proof.
  intros Hex Hget.
  unfold insert_many, exists_, observe, command, bind, ret; simpl.
  rewrite Hex; simpl. rewrite Hget; simpl. rewrite collect_fmap.
  destruct (data_insert_many _ _ _) as [r c']; simpl.
  now rewrite <- !app_assoc.
Qed.

Lemma insert_many_absent (a : t C H) name items c1 h :
  collections_exists name (client a) = Ok false ->
  collections_create name Vectorizer_none default_properties (client a)
  = (Ok tt, c1) ->
  collections_get name c1 = Ok h ->
  let inserted := data_insert_many h (prepare <$> items) c1 in
  insert_many name items a
  = (fst inserted,
     mk (snd inserted)
        (journal a ++ [CollectionsExists name; CollectionsExists name;
                       CollectionsCreate name Vectorizer_none default_properties;
                       CollectionsGet name;
                       DataInsertMany h (prepare <$> items)])).
Proof.
  intros Hex Hcr Hget.
  unfold insert_many, create_collection, exists_, observe, command, bind, ret;
    simpl.
  rewrite Hex; simpl. rewrite Hex; simpl. rewrite Hcr; simpl.
  rewrite Hget; simpl. rewrite collect_fmap.
  destruct (data_insert_many _ _ _) as [r c']; simpl.
  now rewrite <- !app_assoc.
Qed.

(** Whatever the client answers, an absent collection makes [insert_many]
    start with the two existence checks and the creation. *)
Lemma insert_many_absent_journal (a : t C H) name items :
  collections_exists name (client a) = Ok false ->
  exists rest,
    journal (snd (insert_many name items a))
    = journal a ++ [CollectionsExists name; CollectionsExists name;
                    CollectionsCreate name Vectorizer_none default_properties]
        ++ rest
    /\ Forall (fun c => is_create c = false) rest.
Proof.
  intros Hex.
  unfold insert_many, create_collection, exists_, observe, command, bind, ret;
    simpl.
  rewrite Hex; simpl. rewrite Hex; simpl.
  destruct (collections_create _ _ _ _) as [[[]|e] c1]; simpl.
  - destruct (collections_get name c1) as [h|e]; simpl.
    + destruct (data_insert_many _ _ _) as [r c2]; simpl.
      eexists [_; _]. rewrite <- !app_assoc; simpl. split; [reflexivity|].
      repeat constructor.
    + exists [CollectionsGet name]. rewrite <- !app_assoc; simpl.
      split; [reflexivity|]. repeat constructor.
  - exists []. rewrite <- !app_assoc; simpl. split; [reflexivity|]. constructor.
Qed.

Lemma insert_many_present_journal (a : t C H) name items :
  collections_exists name (client a) = Ok true ->
  exists new,
    journal (snd (insert_many name items a)) = journal a ++ new
    /\ Forall (fun c => is_create c = false) new.
Proof.
  intros Hex.
  unfold insert_many, exists_, observe, command, bind, ret; simpl.
  rewrite Hex; simpl.
  destruct (collections_get name (client a)) as [h|e]; simpl.
  - destruct (data_insert_many _ _ _) as [r c2]; simpl.
    eexists [_; _; _]. rewrite <- !app_assoc; simpl. split; [reflexivity|].
    repeat constructor.
  - eexists [_; _]. rewrite <- !app_assoc; simpl. split; [reflexivity|].
    repeat constructor.
Qed.

(** C4. [query_nearest] hands back one record per object the backing
    store delivers, in the store's order: when the store honours the
    limit [k] and delivers closest first, the result has at most [k]
    records in ascending distance; each record carries the distance the
    store reported and null when none was reported; an empty delivery
    (empty collection, or fewer than [k] entries) is returned as it is,
    without an error. *)
Theorem query_nearest_at_most_k_in_store_order
    (a : t C H) (name : string) (vector : list float) (k : Z)
    (h : H) (res : QueryReturn) :
  collections_get name (client a) = Ok h ->
  query_near_vector h vector k (mkMetadataQuery true) (client a) = Ok res ->
  Z.of_nat (length (objects res)) <= k ->
  delivered_ascending (objects res) ->
  exists out : list (gmap string value),
    fst (query_nearest name vector k a) = Ok out
    /\ Z.of_nat (length out) <= k
    /\ length out = length (objects res)
    /\ (forall (i : nat) obj, objects res !! i = Some obj ->
          exists r : gmap string value,
            out !! i = Some r
            /\ r !! "title" = Some (get (properties obj) "title" (VStr ""))
            /\ r !! "description"
               = Some (get (properties obj) "description" (VStr ""))
            /\ r !! "query" = Some (get (properties obj) "query" (VStr ""))
            /\ (forall d, reported_distance obj d ->
                  r !! "distance" = Some (VFloat d))
            /\ ((forall d, ~ reported_distance obj d) ->
                  r !! "distance" = Some VNone))
    /\ results_ascending out
    /\ (objects res = [] -> out = []).
Proof.
  intros Hget Hq Hlen Hasc.
  exists (search_result <$> objects res).
  rewrite (query_nearest_run a name vector k h res Hget Hq); simpl.
  split_and!.
  - reflexivity.
  - now rewrite length_fmap.
  - now rewrite length_fmap.
  - intros i obj Hi. exists (search_result obj).
    rewrite (list_lookup_fmap_Some_2 search_result _ _ _ Hi).
    split_and!.
    + reflexivity.
    + apply search_result_title.
    + apply search_result_description.
    + apply search_result_query.
    + intros d Hd. rewrite search_result_distance.
      now rewrite (distance_of_reported obj d Hd).
    + intros Hnone. rewrite search_result_distance.
      destruct (distance_of obj) as [d|] eqn:Hd; [|reflexivity].
      exfalso. apply (Hnone d). now apply distance_of_Some.
  - intros i r1 r2 d1 d2 H1 H2 Hd1 Hd2.
    apply list_lookup_fmap_Some_1 in H1 as (o1 & -> & Ho1).
    apply list_lookup_fmap_Some_1 in H2 as (o2 & -> & Ho2).
    rewrite search_result_distance in Hd1, Hd2.
    apply (Hasc i o1 o2 d1 d2 Ho1 Ho2); apply distance_of_Some.
    + destruct (distance_of o1); simpl in Hd1; congruence.
    + destruct (distance_of o2); simpl in Hd2; congruence.
  - intros ->. reflexivity.
Qed.

(** C5 (as amended). [create_collection] on an existing collection and
    [delete_collection] on an absent one only perform the existence check:
    no call that changes the store is issued and nothing is raised.
    [close] keeps no record of having been called: every call, a second
    one included, issues the client's release call again; a release
    failure deriving from [Exception] is suppressed, one deriving only
    from [BaseException] is not. *)
Theorem lifecycle_calls_guarded_close_repeats
    (a : t C H) (name : string) (schema : option (list Property)) :
  (collections_exists name (client a) = Ok true ->
     create_collection name schema a
     = (Ok tt, mk (client a) (journal a ++ [CollectionsExists name])))
  /\ (collections_exists name (client a) = Ok false ->
        delete_collection name a
        = (Ok tt, mk (client a) (journal a ++ [CollectionsExists name])))
  /\ (client_close = Missing -> close a = (Ok tt, a))
  /\ (forall release, client_close = Bound release ->
        let once := snd (close a) in
        let twice := snd (close once) in
        journal once = journal a ++ [ClientClose]
        /\ client once = snd (release (client a))
        /\ journal twice = journal a ++ [ClientClose; ClientClose]
        /\ client twice = snd (release (snd (release (client a))))
        /\ (fst (release (client a)) = Ok tt -> fst (close a) = Ok tt)
        /\ (forall e, fst (release (client a)) = Raise e ->
              isinstance_Exception e = true -> fst (close a) = Ok tt)
        /\ (forall e, fst (release (client a)) = Raise e ->
              isinstance_Exception e = false -> fst (close a) = Raise e)).
Proof.
  split_and!.
  - apply create_collection_present.
  - apply delete_collection_absent.
  - apply close_without_attribute.
  - intros release Hc; cbv zeta.
    rewrite !(close_with_attribute _ release Hc); simpl.
    split_and!; try reflexivity.
    + now rewrite <- app_assoc.
    + now intros ->.
    + intros e -> He. now rewrite He.
    + intros e -> He. now rewrite He.
Qed.

(** C6. When the target collection is absent, [insert_many] issues the
    creation call, with no vectorizer and the default properties, before
    anything else that changes the store, and the batch is inserted into
    what the creation leaves; when the collection is present no creation
    call is issued. *)
Theorem insert_many_creates_only_when_absent
    (a : t C H) (name : string) (items : list (gmap string value)) :
  (collections_exists name (client a) = Ok false ->
     (exists rest,
        journal (snd (insert_many name items a))
        = journal a ++ [CollectionsExists name; CollectionsExists name;
                        CollectionsCreate name Vectorizer_none
                          default_properties] ++ rest
        /\ Forall (fun c => is_create c = false) rest)
     /\ (forall c1 h,
           collections_create name Vectorizer_none default_properties (client a)
           = (Ok tt, c1) ->
           collections_get name c1 = Ok h ->
           insert_many name items a
           = (fst (data_insert_many h (prepare <$> items) c1),
              mk (snd (data_insert_many h (prepare <$> items) c1))
                 (journal a ++ [CollectionsExists name; CollectionsExists name;
                                CollectionsCreate name Vectorizer_none
                                  default_properties;
                                CollectionsGet name;
                                DataInsertMany h (prepare <$> items)]))))
  /\ (collections_exists name (client a) = Ok true ->
        exists new,
          journal (snd (insert_many name items a)) = journal a ++ new
          /\ Forall (fun c => is_create c = false) new).
Proof.
  split_and!.
  - intros Hex. split.
    + now apply insert_many_absent_journal.
    + intros c1 h Hcr Hget. now apply insert_many_absent.
  - apply insert_many_present_journal.
Qed.

(** C7. [create_collection] without a schema, on a collection that does
    not exist, asks the client to create it with exactly the three text
    properties [title], [description], [query] and the [none] vectorizer. *)
Theorem create_collection_default_schema (a : t C H) (name : string) :
  collections_exists name (client a) = Ok false ->
  let properties :=
    [ mkProperty "title" TEXT;
      mkProperty "description" TEXT;
      mkProperty "query" TEXT ] in
  let created := collections_create name Vectorizer_none properties (client a) in
  create_collection name None a
  = (fst created,
     mk (snd created)
        (journal a ++ [CollectionsExists name;
                       CollectionsCreate name Vectorizer_none properties])).
Proof.
  intros Hex. exact (create_collection_absent a name None Hex).
Qed.

Lemma prepare_property (it : gmap string value) (k : string) :
  k = "title" \/ k = "description" \/ k = "query" ->
  item_properties (prepare it) !! k = Some (get it k (VStr "")).
Proof.
  unfold prepare; simpl. intros [->|[->| ->]].
  - now rewrite lookup_insert_eq.
  - rewrite lookup_insert_ne by done. now rewrite lookup_insert_eq.
  - do 2 (rewrite lookup_insert_ne by done). now rewrite lookup_insert_eq.
Qed.

(** What [insert_many] raises was raised by the client. *)
Lemma insert_many_raises_from_client (a : t C H) name items e :
  fst (insert_many name items a) = Raise e ->
  collections_exists name (client a) = Raise e
  \/ (exists c1,
        collections_create name Vectorizer_none default_properties (client a)
        = (Raise e, c1))
  \/ (exists c1, collections_get name c1 = Raise e)
  \/ (exists h c1 c2,
        data_insert_many h (prepare <$> items) c1 = (Raise e, c2)).
Proof.
  unfold insert_many, create_collection, exists_, observe, command, bind, ret;
    simpl.
  destruct (collections_exists name (client a)) as [[|]|e0] eqn:Hex; simpl.
  - destruct (collections_get name (client a)) as [h|e1] eqn:Hget; simpl.
    + rewrite collect_fmap.
      destruct (data_insert_many _ _ _) as [r c2] eqn:Hins; simpl.
      intros ->. right; right; right. eauto.
    + intros [= ->]. right; right; left. eauto.
  - rewrite Hex; simpl.
    destruct (collections_create _ _ _ _) as [[[]|e1] c1] eqn:Hcr; simpl.
    + destruct (collections_get name c1) as [h|e1] eqn:Hget; simpl.
      * rewrite collect_fmap.
        destruct (data_insert_many _ _ _) as [r c2] eqn:Hins; simpl.
        intros ->. right; right; right. eauto.
      * intros [= ->]. right; right; left. eauto.
    + intros [= ->]. right; left. eauto.
  - intros [= ->]. now left.
Qed.

(** C10. [insert_many] does not depend on the shape of the items: each
    item of the batch yields one prepared entry, in which a missing
    [title], [description] or [query] is the empty string and a missing
    [vector] is null, while a key that is present keeps its value; the
    only exceptions that can come out of the call are those raised by
    the client. *)
Theorem insert_many_total_over_item_shape
    (a : t C H) (name : string) (items : list (gmap string value)) :
  (forall e, fst (insert_many name items a) = Raise e ->
     collections_exists name (client a) = Raise e
     \/ (exists c1,
           collections_create name Vectorizer_none default_properties (client a)
           = (Raise e, c1))
     \/ (exists c1, collections_get name c1 = Raise e)
     \/ (exists h c1 c2,
           data_insert_many h (prepare <$> items) c1 = (Raise e, c2)))
  /\ (forall h,
        collections_exists name (client a) = Ok true ->
        collections_get name (client a) = Ok h ->
        exists prepared,
          journal (snd (insert_many name items a))
          = journal a ++ [CollectionsExists name; CollectionsGet name;
                          DataInsertMany h prepared]
          /\ fst (insert_many name items a)
             = fst (data_insert_many h prepared (client a))
          /\ length prepared = length items
          /\ forall (i : nat) (it : gmap string value),
               items !! i = Some it ->
               exists p, prepared !! i = Some p
                 /\ (forall k, k = "title" \/ k = "description" \/ k = "query" ->
                       (it !! k = None ->
                          item_properties p !! k = Some (VStr ""))
                       /\ (forall v, it !! k = Some v ->
                             item_properties p !! k = Some v))
                 /\ (it !! "vector" = None -> item_vector p = VNone)
                 /\ (forall v, it !! "vector" = Some v -> item_vector p = v)).
Proof.
  split.
  - intros e. apply insert_many_raises_from_client.
  - intros h Hex Hget. exists (prepare <$> items).
    rewrite (insert_many_present a name items h Hex Hget); simpl.
    split_and!; try reflexivity.
    + now rewrite length_fmap.
    + intros i it Hi. exists (prepare it).
      rewrite (list_lookup_fmap_Some_2 prepare _ _ _ Hi).
      split_and!; try reflexivity.
      * intros k Hk. rewrite (prepare_property it k Hk). unfold get.
        split; [intros ->|intros v ->]; reflexivity.
      * unfold prepare, get; simpl. now intros ->.
      * unfold prepare, get; simpl. now intros v ->.
Qed.

End WithClient.

End AdapterFacts.

(** ** The suggestion pipeline *)

Module PluginFacts.
Import QueryLibraryPlugin Spec.

Section WithCollaborators.
Context {E S : Type} {embeddings : EmbeddingsClient.t E}
  {store : VectorStore.t S}.
Variable COLLECTION_NAME : string.

Lemma format_results_run (result : list (gmap string value))
    (queries : list DashboardQuery.t) (p : t E S) :
  format_results result queries p
  = (Ok (queries ++ (dashboard_query_of <$> result)),
     mk (embeddings_client p) (vectorstore p)
        (logger p ++ (candidate_record <$> result)) (journal p)).
Proof.
  revert queries p. induction result as [|obj rest IH]; intros queries p.
  - simpl. unfold ret. rewrite !app_nil_r. now destruct p.
  - simpl. unfold bind, log, modify; simpl. rewrite IH; simpl.
    now rewrite <- !app_assoc.
Qed.

Lemma missing_collection_message_nonempty :
  missing_collection_message COLLECTION_NAME <> "".
Proof. unfold missing_collection_message. simpl. discriminate. Qed.

(** Runs [get_query_suggestions] symbolically, one case per answer of the
    collaborators. *)
Ltac run_pipeline purpose p :=
  unfold get_query_suggestions, try_except_Exception, call_get_embedding,
    call_exists, call_query_nearest, log, modify, bind, ret, lift; simpl;
  let emb := fresh "emb" in
  let e := fresh "e" in
  let e' := fresh "e'" in
  let s' := fresh "s'" in
  let Hemb := fresh "Hemb" in
  let Hex := fresh "Hex" in
  let Hq := fresh "Hq" in
  destruct (EmbeddingsClient.get_embedding purpose (embeddings_client p))
    as [[emb|e] e'] eqn:Hemb; simpl;
  [ destruct (VectorStore.exists_ COLLECTION_NAME (vectorstore p))
      as [[[|]|e] s'] eqn:Hex; simpl;
    [ destruct emb as [|v rest]; simpl;
      [ | destruct (VectorStore.query_nearest COLLECTION_NAME v 3 s')
            as [[result|e] s''] eqn:Hq; simpl;
          [ rewrite !format_results_run; simpl | ] ]
    | | ]
  | ];
  try match goal with
      | e : exc |- _ => destruct (isinstance_Exception e) eqn:?; simpl
      end.

Lemma get_query_suggestions_missing_collection
    (p : t E S) purpose keywords emb e' s' :
  EmbeddingsClient.get_embedding purpose (embeddings_client p) = (Ok emb, e') ->
  VectorStore.exists_ COLLECTION_NAME (vectorstore p) = (Ok false, s') ->
  get_query_suggestions COLLECTION_NAME purpose keywords p
  = (Ok (error_response (missing_collection_message COLLECTION_NAME)),
     mk e' s'
        (logger p ++ [InfoSearching purpose (String.concat ", " keywords)])
        (journal p ++ [GetEmbedding purpose (Ok emb);
                       Exists COLLECTION_NAME (Ok false)])).
Proof.
  intros Hemb Hex.
  unfold get_query_suggestions, try_except_Exception, call_get_embedding,
    call_exists, log, modify, bind, ret; simpl.
  rewrite Hemb; simpl. rewrite Hex; simpl.
  now rewrite <- app_assoc.
Qed.

Lemma get_query_suggestions_success_inv
    (p p' : t E S) purpose keywords resp :
  get_query_suggestions COLLECTION_NAME purpose keywords p = (Ok resp, p') ->
  QuerySuggestionResponse.error resp = None ->
  exists v rest e' s' s'' result,
    EmbeddingsClient.get_embedding purpose (embeddings_client p)
    = (Ok (v :: rest), e')
    /\ VectorStore.exists_ COLLECTION_NAME (vectorstore p) = (Ok true, s')
    /\ VectorStore.query_nearest COLLECTION_NAME v 3 s' = (Ok result, s'')
    /\ resp = QuerySuggestionResponse.mk None (dashboard_query_of <$> result)
    /\ journal p'
       = journal p ++ [GetEmbedding purpose (Ok (v :: rest));
                       Exists COLLECTION_NAME (Ok true);
                       QueryNearest COLLECTION_NAME v 3 (Ok result)].
Proof.
  run_pipeline purpose p; intros [= <- <-]; try discriminate.
  intros _. exists v, rest, e', s', s'', result.
  split_and!; try reflexivity; try assumption.
  simpl. now rewrite <- !app_assoc.
Qed.

(** The calls a run adds to the journal. *)
Lemma get_query_suggestions_journal (p : t E S) purpose keywords :
  exists new,
    journal (snd (get_query_suggestions COLLECTION_NAME purpose keywords p))
    = journal p ++ new
    /\ forall (i : nat) name v k r,
         new !! i = Some (QueryNearest name v k r) ->
         exists j, i = Datatypes.S j
                   /\ new !! j = Some (Exists COLLECTION_NAME (Ok true)).
Proof.
  run_pipeline purpose p; rewrite <- ?app_assoc; simpl;
    (eexists; split; [reflexivity|]);
    intros [|[|[|i]]] name' v' k' r'; simpl; intros [= ]; subst;
    try (exists 1%nat; split; reflexivity).
Qed.

(** C1 (as amended). [get_query_suggestions] intercepts what derives
    from [Exception]: such a failure of the embedding call, of the
    existence check, of taking the first vector or of the search is
    turned into [{error: str(e), queries: []}], so with collaborators
    whose failures all derive from [Exception] every run returns a
    response.  What derives from [BaseException] only is not intercepted:
    it is the only kind of exception a run can end with, and it is passed
    on to the caller unchanged. *)
Theorem get_query_suggestions_contains_Exception
    (p : t E S) (purpose : string) (keywords : list string) :
  let run := get_query_suggestions COLLECTION_NAME purpose keywords p in
  (forall e, fst run = Raise e -> isinstance_Exception e = false)
  /\ (embedding_raises_Exception_only E ->
      store_raises_Exception_only S ->
      exists resp, fst run = Ok resp
        /\ (QuerySuggestionResponse.error resp = None
            \/ exists message, resp = error_response message))
  /\ (forall e e',
        EmbeddingsClient.get_embedding purpose (embeddings_client p)
        = (Raise e, e') ->
        fst run = if isinstance_Exception e
                  then Ok (error_response (exc_str e)) else Raise e)
  /\ (forall emb e' e s',
        EmbeddingsClient.get_embedding purpose (embeddings_client p)
        = (Ok emb, e') ->
        VectorStore.exists_ COLLECTION_NAME (vectorstore p) = (Raise e, s') ->
        fst run = if isinstance_Exception e
                  then Ok (error_response (exc_str e)) else Raise e)
  /\ (forall e' s',
        EmbeddingsClient.get_embedding purpose (embeddings_client p)
        = (Ok [], e') ->
        VectorStore.exists_ COLLECTION_NAME (vectorstore p) = (Ok true, s') ->
        fst run = Ok (error_response "list index out of range"))
  /\ (forall v rest e' s' e s'',
        EmbeddingsClient.get_embedding purpose (embeddings_client p)
        = (Ok (v :: rest), e') ->
        VectorStore.exists_ COLLECTION_NAME (vectorstore p) = (Ok true, s') ->
        VectorStore.query_nearest COLLECTION_NAME v 3 s' = (Raise e, s'') ->
        fst run = if isinstance_Exception e
                  then Ok (error_response (exc_str e)) else Raise e).
Proof.
  cbv zeta.
  run_pipeline purpose p; split_and!.
  (* what a run ends with *)
  all: try (intros e0 He0; simplify_eq; assumption).
  (* collaborators that only raise from [Exception] *)
  all: try
    (intros Hembs [Hexs Hqs];
     first
       [ eexists; split; [reflexivity|]; simpl; eauto
       | exfalso;
         match goal with
         | Hr : _ = (Raise ?e, _), Hc : isinstance_Exception ?e = false |- _ =>
             first [ pose proof (Hembs _ _ _ _ Hr)
                   | pose proof (Hexs _ _ _ _ Hr)
                   | pose proof (Hqs _ _ _ _ _ _ Hr) ];
             congruence
         end ]).
  (* the individual steps *)
  all: intros; simplify_eq;
    repeat match goal with
    | H1 : ?x = (_, _), H2 : ?x = (_, _) |- _ =>
        rewrite H1 in H2; simplify_eq
    end;
    repeat match goal with
    | Hc : isinstance_Exception ?e = _ |- context [isinstance_Exception ?e] =>
        rewrite Hc
    end;
    reflexivity.
Qed.

(** C2. When the embedding succeeds and the existence check answers
    false, the result is [{error: msg, queries: []}] with a non-empty
    message, nothing is raised, and the only calls made are the embedding
    and the existence check.  In every run, a [query_nearest] call comes
    directly after an existence check that answered true. *)
Theorem missing_collection_is_reported_without_search
    (p : t E S) (purpose : string) (keywords : list string) :
  let run := get_query_suggestions COLLECTION_NAME purpose keywords p in
  (forall emb e' s',
     EmbeddingsClient.get_embedding purpose (embeddings_client p)
     = (Ok emb, e') ->
     VectorStore.exists_ COLLECTION_NAME (vectorstore p) = (Ok false, s') ->
     exists message,
       fst run = Ok (QuerySuggestionResponse.mk (Some message) [])
       /\ message <> ""
       /\ journal (snd run)
          = journal p ++ [GetEmbedding purpose (Ok emb);
                          Exists COLLECTION_NAME (Ok false)]
       /\ vectorstore (snd run) = s')
  /\ (exists new,
        journal (snd run) = journal p ++ new
        /\ forall (i : nat) name v k r,
             new !! i = Some (QueryNearest name v k r) ->
             exists j, i = Datatypes.S j
                       /\ new !! j = Some (Exists COLLECTION_NAME (Ok true))).
Proof.
  cbv zeta. split.
  - intros emb e' s' Hemb Hex.
    exists (missing_collection_message COLLECTION_NAME).
    rewrite (get_query_suggestions_missing_collection
               p purpose keywords emb e' s' Hemb Hex); simpl.
    split_and!; try reflexivity. apply missing_collection_message_nonempty.
  - apply get_query_suggestions_journal.
Qed.

(** C3. The keywords have no influence on what a run returns, on the
    calls it makes, or on the state it leaves in the collaborators. *)
Theorem keywords_do_not_influence_result
    (p : t E S) (purpose : string) (keywords1 keywords2 : list string) :
  let run1 := get_query_suggestions COLLECTION_NAME purpose keywords1 p in
  let run2 := get_query_suggestions COLLECTION_NAME purpose keywords2 p in
  fst run1 = fst run2
  /\ journal (snd run1) = journal (snd run2)
  /\ embeddings_client (snd run1) = embeddings_client (snd run2)
  /\ vectorstore (snd run1) = vectorstore (snd run2).
Proof.
  cbv zeta. run_pipeline purpose p; split_and!; reflexivity.
Qed.

(** C8. A run that returns [{queries: ...}] has made exactly one search,
    on the configured collection, with the first vector of the sequence
    the embedding client returned and with limit 3. *)
Theorem successful_run_searches_first_vector_limit_3
    (p p' : t E S) (purpose : string) (keywords : list string)
    (resp : QuerySuggestionResponse.t) :
  get_query_suggestions COLLECTION_NAME purpose keywords p = (Ok resp, p') ->
  QuerySuggestionResponse.error resp = None ->
  exists v rest e' result,
    EmbeddingsClient.get_embedding purpose (embeddings_client p)
    = (Ok (v :: rest), e')
    /\ journal p'
       = journal p ++ [GetEmbedding purpose (Ok (v :: rest));
                       Exists COLLECTION_NAME (Ok true);
                       QueryNearest COLLECTION_NAME v 3 (Ok result)]
    /\ filter (fun ev => is_query_nearest ev) (journal p')
       = filter (fun ev => is_query_nearest ev) (journal p)
           ++ [QueryNearest COLLECTION_NAME v 3 (Ok result)].
Proof.
  intros Hrun Hok.
  destruct (get_query_suggestions_success_inv p p' purpose keywords resp
              Hrun Hok)
    as (v & rest & e' & s' & s'' & result & Hemb & _ & _ & _ & Hj).
  exists v, rest, e', result. split_and!; [exact Hemb|exact Hj|].
  rewrite Hj, filter_app. reflexivity.
Qed.

End WithCollaborators.

End PluginFacts.

(** ** The pipeline on top of the adapter *)

Module EndToEnd.
Import Weaviate QueryLibraryPlugin Spec.

Section WithClient.
Context {E C H : Type} {embeddings : EmbeddingsClient.t E}
  {weaviate : Client C H}.
Variable COLLECTION_NAME : string.

Lemma adapter_query_nearest_inv
    (a a' : WeaviateAdapter.t C H) name vector k out :
  WeaviateAdapter.query_nearest name vector k a = (Ok out, a') ->
  exists res, out = WeaviateAdapter.search_result <$> objects res.
Proof.
  unfold WeaviateAdapter.query_nearest, WeaviateAdapter.observe, bind, ret;
    simpl.
  destruct (collections_get name (WeaviateAdapter.client a)) as [h|e]; simpl;
    [|discriminate].
  destruct (query_near_vector h vector k _ _) as [res|e]; simpl;
    [|discriminate].
  intros [= <- _]. exists res. apply AdapterFacts.collect_fmap.
Qed.

Lemma search_result_has_no_id (obj : Object) :
  WeaviateAdapter.search_result obj !! "id" = None.
Proof.
  destruct (WeaviateAdapter.search_result obj !! "id") as [x|] eqn:Hx;
    [|reflexivity].
  assert (Hs : is_Some (WeaviateAdapter.search_result obj !! "id"))
    by (rewrite Hx; eauto).
  apply AdapterFacts.search_result_keys in Hs.
  destruct Hs as [Hs|[Hs|[Hs|Hs]]]; discriminate Hs.
Qed.

(** C9. The records [query_nearest] of the adapter returns have exactly
    the keys [title], [description], [query] and [distance]; so in every
    successful run of the pipeline on the adapter each returned
    [DashboardQuery] has the empty string as its [id]. *)
Theorem suggestions_from_adapter_have_empty_id
    (p p' : QueryLibraryPlugin.t E (WeaviateAdapter.t C H))
    (purpose : string) (keywords : list string)
    (resp : QuerySuggestionResponse.t) :
  get_query_suggestions COLLECTION_NAME purpose keywords p = (Ok resp, p') ->
  QuerySuggestionResponse.error resp = None ->
  Forall (fun q => DashboardQuery.id q = VStr "")
         (QuerySuggestionResponse.queries resp)
  /\ exists v result,
       last (journal p') = Some (QueryNearest COLLECTION_NAME v 3 (Ok result))
       /\ forall r : gmap string value, r ∈ result ->
            forall key : string,
              is_Some (r !! key)
              <-> key = "title" \/ key = "description" \/ key = "query"
                  \/ key = "distance".
Proof.
  intros Hrun Hok.
  destruct (PluginFacts.get_query_suggestions_success_inv
              COLLECTION_NAME p p' purpose keywords resp Hrun Hok)
    as (v & rest & e' & s' & s'' & result & _ & _ & Hq & -> & Hj).
  simpl in Hq. apply adapter_query_nearest_inv in Hq as [res ->].
  split.
  - simpl. apply Forall_fmap, Forall_fmap, Forall_forall. intros obj _; simpl.
    unfold dashboard_query_of, get; simpl.
    now rewrite search_result_has_no_id.
  - exists v, (WeaviateAdapter.search_result <$> objects res).
    rewrite Hj, last_app; simpl. split; [reflexivity|].
    intros r Hr key. apply list_elem_of_fmap in Hr as (obj & -> & _).
    apply AdapterFacts.search_result_keys.
Qed.

End WithClient.

End EndToEnd.

(** ** The statements on the in-memory collaborators *)

Module Scenarios.
Import Weaviate WeaviateAdapter Spec InMemory.

Lemma in_memory_embedding_raises_Exception_only e :
  isinstance_Exception e = true ->
  embedding_raises_Exception_only unit (embeddings := raising e).
Proof. intros He text s e0 s'; simpl. now intros [= <- _]. Defined.

Lemma in_memory_store_raises_Exception_only :
  store_raises_Exception_only (WeaviateAdapter.t Db string).
Proof.
  split.
  - intros name s e s'; simpl.
    unfold exists_, observe; simpl. unfold db_exists.
    destruct (collections (client s) !! name); discriminate.
  - intros name vector limit s e s'; simpl.
    unfold query_nearest, observe, bind, ret; simpl. unfold db_near_vector.
    destruct (collections (client s) !! name); simpl; [discriminate|].
    now intros [= <- _].
Defined.

Lemma query_nearest_at_most_k_witness :
  exists out,
    fst (query_nearest "queries" question 3 (adapter sample_db)) = Ok out
    /\ Z.of_nat (length out) <= 3
    /\ results_ascending out.
Proof.
  edestruct (AdapterFacts.query_nearest_at_most_k_in_store_order
               (adapter sample_db) "queries" question 3)
    as (out & Hout & Hlen & _ & _ & Hasc & _).
  - reflexivity.
  - reflexivity.
  - vm_compute. discriminate.
  - intros i o1 o2 d1 d2 H1 H2 (md1 & Hm1 & Hd1) (md2 & Hm2 & Hd2).
    destruct i as [|[|[|i]]]; vm_compute in H1, H2; simplify_eq;
      vm_compute in Hm1, Hm2; simplify_eq.
    vm_compute in Hd1, Hd2. simplify_eq. reflexivity.
  - exists out. auto.
Defined.

Lemma lifecycle_calls_witness :
  create_collection "queries" None (adapter sample_db)
  = (Ok tt, mk sample_db [CollectionsExists "queries"])
  /\ delete_collection "absent" (adapter sample_db)
     = (Ok tt, mk sample_db [CollectionsExists "absent"])
  /\ journal (snd (close (snd (close (adapter sample_db)))))
     = [ClientClose; ClientClose].
Proof.
  destruct (AdapterFacts.lifecycle_calls_guarded_close_repeats
              (adapter sample_db) "queries" None) as (Hc & _ & _ & Hcl).
  destruct (AdapterFacts.lifecycle_calls_guarded_close_repeats
              (adapter sample_db) "absent" None) as (_ & Hd & _ & _).
  split_and!.
  - apply Hc. reflexivity.
  - apply Hd. reflexivity.
  - destruct (Hcl db_close eq_refl) as (_ & _ & Hj & _). exact Hj.
Defined.

(** C5, as first stated, fails: a second [close] releases the connection
    a second time, and a release failing with [KeyboardInterrupt] comes
    out of [close]. *)
Lemma close_twice_releases_twice :
  let once := snd (close (adapter empty_db)) in
  let twice := snd (close once) in
  fst (close once) = Ok tt
  /\ releases (client once) = 1%nat
  /\ releases (client twice) = 2%nat
  /\ client twice <> client once
  /\ journal twice = [ClientClose; ClientClose]
  /\ fst (close (weaviate := failing_close keyboard_interrupt)
                (adapter empty_db))
     = Raise keyboard_interrupt.
Proof.
  cbv zeta. split_and!; try reflexivity. intros [=].
Qed.

Lemma insert_many_creates_witness :
  journal (snd (insert_many "queries" [titled_item] (adapter empty_db)))
  = [CollectionsExists "queries"; CollectionsExists "queries";
     CollectionsCreate "queries" Vectorizer_none default_properties;
     CollectionsGet "queries";
     DataInsertMany "queries" [prepare titled_item]]
  /\ Forall (fun c => is_create c = false)
       (journal (snd (insert_many "queries" [titled_item]
                                  (adapter sample_db)))).
Proof.
  destruct (AdapterFacts.insert_many_creates_only_when_absent
              (adapter empty_db) "queries" [titled_item]) as [Habsent _].
  destruct (AdapterFacts.insert_many_creates_only_when_absent
              (adapter sample_db) "queries" [titled_item]) as [_ Hpresent].
  split.
  - destruct (Habsent eq_refl) as [_ Hrun].
    now rewrite (Hrun _ _ eq_refl eq_refl).
  - destruct (Hpresent eq_refl) as (new & -> & Hnew). exact Hnew.
Defined.

Lemma create_collection_default_schema_witness :
  journal (snd (create_collection "queries" None (adapter empty_db)))
  = [CollectionsExists "queries";
     CollectionsCreate "queries" Vectorizer_none
       [mkProperty "title" TEXT; mkProperty "description" TEXT;
        mkProperty "query" TEXT]].
Proof.
  pose proof (AdapterFacts.create_collection_default_schema
                (adapter empty_db) "queries" eq_refl) as Hrun.
  cbv zeta in Hrun. now rewrite Hrun.
Defined.

Lemma insert_many_item_shape_witness :
  exists prepared,
    journal (snd (insert_many "queries" [bare_item; titled_item]
                              (adapter sample_db)))
    = [CollectionsExists "queries"; CollectionsGet "queries";
       DataInsertMany "queries" prepared]
    /\ exists p, prepared !! 0%nat = Some p
         /\ item_properties p !! "title" = Some (VStr "")
         /\ item_vector p = VNone.
Proof.
  destruct (AdapterFacts.insert_many_total_over_item_shape
              (adapter sample_db) "queries" [bare_item; titled_item])
    as [_ Hshape].
  destruct (Hshape "queries" eq_refl eq_refl)
    as (prepared & Hj & _ & _ & Hitems).
  exists prepared. split; [exact Hj|].
  destruct (Hitems 0%nat bare_item eq_refl) as (p & Hp & Hprops & Hv & _).
  exists p. split_and!.
  - exact Hp.
  - destruct (Hprops "title") as [Hmissing _]; [now left|].
    apply Hmissing. reflexivity.
  - apply Hv. reflexivity.
Defined.

Lemma exceptions_contained_witness :
  fst (QueryLibraryPlugin.get_query_suggestions
         (embeddings := raising timeout_error)
         "queries" "count of subscriptions" ["subscriptions"; "count"]
         (plugin sample_db))
  = Ok (QueryLibraryPlugin.error_response "embedding request timed out")
  /\ exists resp,
       fst (QueryLibraryPlugin.get_query_suggestions
              (embeddings := raising timeout_error)
              "queries" "count of subscriptions" ["subscriptions"; "count"]
              (plugin sample_db))
       = Ok resp.
Proof.
  destruct (PluginFacts.get_query_suggestions_contains_Exception
              (embeddings := raising timeout_error)
              "queries" (plugin sample_db) "count of subscriptions"
              ["subscriptions"; "count"])
    as (_ & Hreturns & Hembedding & _).
  split.
  - exact (Hembedding timeout_error tt eq_refl).
  - destruct (Hreturns
                (in_memory_embedding_raises_Exception_only timeout_error
                   eq_refl)
                in_memory_store_raises_Exception_only) as (resp & Hresp & _).
    exists resp. exact Hresp.
Defined.

(** C1, as first stated, fails: an embedding call that ends with
    [asyncio.CancelledError] or with [KeyboardInterrupt] (both derive
    from [BaseException] only) is not intercepted, and the exception
    reaches the caller. *)
Lemma cancelled_embedding_escapes :
  let run e :=
    QueryLibraryPlugin.get_query_suggestions (embeddings := raising e)
      "queries" "count of subscriptions" ["subscriptions"; "count"]
      (plugin sample_db) in
  fst (run cancelled_error) = Raise cancelled_error
  /\ fst (run keyboard_interrupt) = Raise keyboard_interrupt
  /\ ~ exists resp, fst (run cancelled_error) = Ok resp.
Proof.
  cbv zeta. split_and!; try reflexivity.
  intros [resp Hresp]. discriminate Hresp.
Qed.

Lemma missing_collection_witness :
  exists message,
    fst (QueryLibraryPlugin.get_query_suggestions (embeddings := answering [question])
           "queries" "count of subscriptions" ["subscriptions"; "count"]
           (plugin empty_db))
    = Ok (QuerySuggestionResponse.mk (Some message) [])
    /\ message <> "".
Proof.
  destruct (PluginFacts.missing_collection_is_reported_without_search
              (embeddings := answering [question])
              "queries" (plugin empty_db) "count of subscriptions"
              ["subscriptions"; "count"]) as [Hmissing _].
  destruct (Hmissing [question] tt
              (mk empty_db [CollectionsExists "queries"]) eq_refl eq_refl)
    as (message & Hrun & Hne & _).
  exists message. split; [exact Hrun | exact Hne].
Defined.

Lemma successful_run_witness :
  exists result,
    QueryLibraryPlugin.journal
      (snd (QueryLibraryPlugin.get_query_suggestions (embeddings := answering [question; []])
              "queries" "count of subscriptions" ["subscriptions"; "count"]
              (plugin sample_db)))
    = [QueryLibraryPlugin.GetEmbedding "count of subscriptions" (Ok [question; []]);
       QueryLibraryPlugin.Exists "queries" (Ok true);
       QueryLibraryPlugin.QueryNearest "queries" question 3 (Ok result)].
Proof.
  destruct (QueryLibraryPlugin.get_query_suggestions (embeddings := answering [question; []])
              "queries" "count of subscriptions" ["subscriptions"; "count"]
              (plugin sample_db)) as [[resp|e] p'] eqn:Hrun;
    [|vm_compute in Hrun; discriminate Hrun].
  assert (Hok : QuerySuggestionResponse.error resp = None)
    by (vm_compute in Hrun; now simplify_eq).
  destruct (PluginFacts.successful_run_searches_first_vector_limit_3
              (embeddings := answering [question; []])
              "queries" (plugin sample_db) p' "count of subscriptions"
              ["subscriptions"; "count"] resp Hrun Hok)
    as (v & rest & e' & result & Hemb & Hj & _).
  simpl in Hemb. injection Hemb as <- <- <-.
  exists result. exact Hj.
Defined.

Lemma empty_id_witness :
  exists resp,
    fst (QueryLibraryPlugin.get_query_suggestions (embeddings := answering [question])
           "queries" "count of subscriptions" ["subscriptions"; "count"]
           (plugin sample_db))
    = Ok resp
    /\ length (QuerySuggestionResponse.queries resp) = 3%nat
    /\ Forall (fun q => DashboardQuery.id q = VStr "")
              (QuerySuggestionResponse.queries resp).
Proof.
  destruct (QueryLibraryPlugin.get_query_suggestions (embeddings := answering [question])
              "queries" "count of subscriptions" ["subscriptions"; "count"]
              (plugin sample_db)) as [[resp|e] p'] eqn:Hrun;
    [|vm_compute in Hrun; discriminate Hrun].
  assert (Hok : QuerySuggestionResponse.error resp = None)
    by (vm_compute in Hrun; now simplify_eq).
  assert (Hlen : length (QuerySuggestionResponse.queries resp) = 3%nat)
    by (vm_compute in Hrun; now simplify_eq).
  destruct (EndToEnd.suggestions_from_adapter_have_empty_id
              (embeddings := answering [question])
              "queries" (plugin sample_db) p' "count of subscriptions"
              ["subscriptions"; "count"] resp Hrun Hok) as [Hids _].
  exists resp. auto.
Defined.

End Scenarios.

(** ** Further behaviour of the adapter *)

Module AdapterBehaviour.
Import Weaviate WeaviateAdapter Spec.

Section WithClient.
Context {C H : Type} {weaviate : Client C H}.

Lemma exists_run (a : t C H) name :
  exists_ name a
  = (collections_exists name (client a),
     mk (client a) (journal a ++ [CollectionsExists name])).
Proof. reflexivity. Qed.

Lemma query_nearest_reads_only (a : t C H) name vector k :
  client (snd (query_nearest name vector k a)) = client a
  /\ exists new,
       journal (snd (query_nearest name vector k a)) = journal a ++ new
       /\ Forall (fun c => is_mutation c = false) new.
Proof.
  unfold query_nearest, observe, bind, ret; simpl.
  destruct (collections_get name (client a)) as [h|e]; simpl.
  - destruct (query_near_vector h vector k _ (client a)) as [res|e]; simpl;
      (split; [reflexivity|]); eexists [_; _]; rewrite <- app_assoc;
      (split; [reflexivity|]); repeat constructor.
  - split; [reflexivity|]. eexists [_]. split; [reflexivity|].
    repeat constructor.
Qed.

Lemma get_collection_iterator_reads_only (a : t C H) name :
  client (snd (get_collection_iterator name a)) = client a
  /\ exists new,
       journal (snd (get_collection_iterator name a)) = journal a ++ new
       /\ Forall (fun c => is_mutation c = false) new.
Proof.
  unfold get_collection_iterator, observe, bind; simpl.
  destruct (collections_get name (client a)) as [h|e]; simpl.
  - split; [reflexivity|]. eexists [_; _]. rewrite <- app_assoc.
    split; [reflexivity|]. repeat constructor.
  - split; [reflexivity|]. eexists [_]. split; [reflexivity|].
    repeat constructor.
Qed.

(** X1. The three look-ups of the adapter ([exists], [query_nearest],
    [get_collection_iterator]) never change the backing store: whatever
    the client answers, and also when it raises, the client is left as
    it was and none of the calls issued is a creation, a deletion, an
    insertion or a release.  In particular [query_nearest] does not
    create a missing collection, unlike [insert_many]. *)
Theorem lookups_never_change_the_store
    (a : t C H) (name : string) (vector : list float) (k : Z) :
  (client (snd (exists_ name a)) = client a
   /\ journal (snd (exists_ name a)) = journal a ++ [CollectionsExists name])
  /\ (client (snd (query_nearest name vector k a)) = client a
      /\ exists new,
           journal (snd (query_nearest name vector k a)) = journal a ++ new
           /\ Forall (fun c => is_mutation c = false) new)
  /\ (client (snd (get_collection_iterator name a)) = client a
      /\ exists new,
           journal (snd (get_collection_iterator name a)) = journal a ++ new
           /\ Forall (fun c => is_mutation c = false) new).
Proof.
  split_and!.
  - reflexivity.
  - reflexivity.
  - apply query_nearest_reads_only.
  - apply query_nearest_reads_only.
  - apply get_collection_iterator_reads_only.
  - apply get_collection_iterator_reads_only.
Qed.

(** X2. [query_nearest] hands the caller's vector and limit to the
    client unchanged and always asks for the distance metadata.  It does
    not check that the collection exists: when the look-up of the
    collection or the search itself raises, that same exception comes out
    of [query_nearest], and after a failed look-up no search is issued. *)
Theorem query_nearest_forwards_and_lets_the_client_raise
    (a : t C H) (name : string) (vector : list float) (k : Z) :
  (forall e,
     collections_get name (client a) = Raise e ->
     query_nearest name vector k a
     = (Raise e, mk (client a) (journal a ++ [CollectionsGet name])))
  /\ (forall h e,
        collections_get name (client a) = Ok h ->
        query_near_vector h vector k (mkMetadataQuery true) (client a)
        = Raise e ->
        query_nearest name vector k a
        = (Raise e,
           mk (client a)
              (journal a ++ [CollectionsGet name;
                             QueryNearVector h vector k
                               (mkMetadataQuery true)])))
  /\ (forall h res,
        collections_get name (client a) = Ok h ->
        query_near_vector h vector k (mkMetadataQuery true) (client a)
        = Ok res ->
        journal (snd (query_nearest name vector k a))
        = journal a ++ [CollectionsGet name;
                        QueryNearVector h vector k (mkMetadataQuery true)]).
Proof.
  split_and!.
  - intros e Hget. unfold query_nearest, observe, bind; simpl.
    now rewrite Hget.
  - intros h e Hget Hq. unfold query_nearest, observe, bind; simpl.
    rewrite Hget; simpl. rewrite Hq; simpl. now rewrite <- app_assoc.
  - intros h res Hget Hq.
    now rewrite (AdapterFacts.query_nearest_run a name vector k h res Hget Hq).
Qed.

(** X3. When the caller supplies a schema and the collection is absent,
    [create_collection] creates it with exactly that schema, still with
    the [none] vectorizer; the outcome and the resulting store are those
    of the client's creation call. *)
Theorem create_collection_passes_schema_on
    (a : t C H) (name : string) (schema : list Property) :
  collections_exists name (client a) = Ok false ->
  create_collection name (Some schema) a
  = (fst (collections_create name Vectorizer_none schema (client a)),
     mk (snd (collections_create name Vectorizer_none schema (client a)))
        (journal a ++ [CollectionsExists name;
                       CollectionsCreate name Vectorizer_none schema])).
Proof.
  intros Hex. exact (AdapterFacts.create_collection_absent a name (Some schema) Hex).
Qed.

Lemma delete_collection_present (a : t C H) name :
  collections_exists name (client a) = Ok true ->
  delete_collection name a
  = (fst (collections_delete name (client a)),
     mk (snd (collections_delete name (client a)))
        (journal a ++ [CollectionsExists name; CollectionsDelete name])).
Proof.
  intros Hex. unfold delete_collection, exists_, observe, command, bind; simpl.
  rewrite Hex; simpl.
  destruct (collections_delete name (client a)) as [r c']; simpl.
  now rewrite <- app_assoc.
Qed.

(** X4. Creating twice creates once, deleting twice deletes once: when
    the client's creation (deletion) succeeds and the client then reports
    the collection as present (absent), a second [create_collection]
    ([delete_collection]) only repeats the existence check, so the
    journal holds a single creation (deletion) call and the store stays
    as the first call left it. *)
Theorem create_and_delete_twice_act_once
    (a : t C H) (name : string) (schema : option (list Property)) :
  (forall c1,
     let properties :=
       match schema with None => default_properties | Some s => s end in
     collections_exists name (client a) = Ok false ->
     collections_create name Vectorizer_none properties (client a)
     = (Ok tt, c1) ->
     collections_exists name c1 = Ok true ->
     create_collection name schema (snd (create_collection name schema a))
     = (Ok tt,
        mk c1 (journal a ++ [CollectionsExists name;
                             CollectionsCreate name Vectorizer_none properties;
                             CollectionsExists name])))
  /\ (forall c1,
        collections_exists name (client a) = Ok true ->
        collections_delete name (client a) = (Ok tt, c1) ->
        collections_exists name c1 = Ok false ->
        delete_collection name (snd (delete_collection name a))
        = (Ok tt,
           mk c1 (journal a ++ [CollectionsExists name;
                                CollectionsDelete name;
                                CollectionsExists name]))).
Proof.
  split.
  - intros c1 properties Hex Hcr Hex1.
    pose proof (AdapterFacts.create_collection_absent a name schema Hex) as Hrun.
    cbv zeta in Hrun. fold properties in Hrun. rewrite Hcr in Hrun.
    rewrite Hrun; simpl.
    rewrite AdapterFacts.create_collection_present by exact Hex1; simpl.
    now rewrite <- app_assoc.
  - intros c1 Hex Hdel Hex1.
    rewrite (delete_collection_present a name Hex), Hdel; simpl.
    rewrite AdapterFacts.delete_collection_absent by exact Hex1; simpl.
    now rewrite <- app_assoc.
Qed.

(** X5. A failing existence check stops [create_collection],
    [delete_collection] and [insert_many] at once: the exception of the
    check comes out, the store is untouched and the check is the only
    call that was made. *)
Theorem failed_existence_check_stops_the_operation
    (a : t C H) (name : string) (schema : option (list Property))
    (items : list (gmap string value)) (e : exc) :
  collections_exists name (client a) = Raise e ->
  let stopped := (Raise e, mk (client a) (journal a ++ [CollectionsExists name])) in
  create_collection name schema a = stopped
  /\ delete_collection name a = stopped
  /\ insert_many name items a = stopped.
Proof.
  intros Hex; cbv zeta. split_and!.
  - now apply AdapterFacts.create_collection_raises.
  - unfold delete_collection, exists_, observe, bind; simpl. now rewrite Hex.
  - unfold insert_many, exists_, observe, bind; simpl. now rewrite Hex.
Qed.

(** X6. When the automatic creation inside [insert_many] fails, or when
    the collection handle cannot be obtained, [insert_many] raises that
    exception and never calls the client's [insert_many]: nothing of the
    batch is written. *)
Theorem insert_many_writes_nothing_after_a_failure
    (a : t C H) (name : string) (items : list (gmap string value)) :
  (forall e c1,
     collections_exists name (client a) = Ok false ->
     collections_create name Vectorizer_none default_properties (client a)
     = (Raise e, c1) ->
     insert_many name items a
     = (Raise e,
        mk c1 (journal a ++ [CollectionsExists name; CollectionsExists name;
                             CollectionsCreate name Vectorizer_none
                               default_properties])))
  /\ (forall e,
        collections_exists name (client a) = Ok true ->
        collections_get name (client a) = Raise e ->
        insert_many name items a
        = (Raise e,
           mk (client a)
              (journal a ++ [CollectionsExists name; CollectionsGet name])))
  /\ (forall e c1,
        collections_exists name (client a) = Ok false ->
        collections_create name Vectorizer_none default_properties (client a)
        = (Ok tt, c1) ->
        collections_get name c1 = Raise e ->
        insert_many name items a
        = (Raise e,
           mk c1 (journal a ++ [CollectionsExists name; CollectionsExists name;
                                CollectionsCreate name Vectorizer_none
                                  default_properties;
                                CollectionsGet name]))).
Proof.
  split_and!.
  - intros e c1 Hex Hcr.
    unfold insert_many, create_collection, exists_, observe, command, bind;
      simpl.
    rewrite Hex; simpl. rewrite Hex; simpl. rewrite Hcr; simpl.
    now rewrite <- !app_assoc.
  - intros e Hex Hget.
    unfold insert_many, exists_, observe, command, bind, ret; simpl.
    rewrite Hex; simpl. rewrite Hget; simpl. now rewrite <- !app_assoc.
  - intros e c1 Hex Hcr Hget.
    unfold insert_many, create_collection, exists_, observe, command, bind,
      ret; simpl.
    rewrite Hex; simpl. rewrite Hex; simpl. rewrite Hcr; simpl.
    rewrite Hget; simpl. now rewrite <- !app_assoc.
Qed.

(** X7. What [insert_many] prepares for an item is what [query_nearest]
    reads back: for an object that holds the prepared properties, the
    returned record has the item's [title], [description] and [query]
    (the empty string where the item had none); the item's vector is not
    part of the record. *)
Theorem prepared_item_reads_back
    (it : gmap string value) (md : attr (option MetadataReturn)) (k : string) :
  k = "title" \/ k = "description" \/ k = "query" ->
  search_result (mkObject (item_properties (prepare it)) md) !! k
  = Some (get it k (VStr ""))
  /\ search_result (mkObject (item_properties (prepare it)) md) !! "vector"
     = None.
Proof.
  intros Hk. split.
  - assert (Hp : get (item_properties (prepare it)) k (VStr "")
                 = get it k (VStr "")).
    { unfold get at 1. now rewrite (AdapterFacts.prepare_property it k Hk). }
    destruct Hk as [->|[->| ->]].
    + now rewrite AdapterFacts.search_result_title.
    + now rewrite AdapterFacts.search_result_description.
    + now rewrite AdapterFacts.search_result_query.
  - destruct (search_result _ !! "vector") as [x|] eqn:Hx; [|reflexivity].
    assert (Hs : is_Some
                   (search_result (mkObject (item_properties (prepare it)) md)
                      !! "vector")) by (rewrite Hx; eauto).
    apply AdapterFacts.search_result_keys in Hs.
    destruct Hs as [Hs|[Hs|[Hs|Hs]]]; discriminate Hs.
Qed.

End WithClient.

End AdapterBehaviour.

(** ** Further behaviour of the pipeline *)

Module PluginBehaviour.
Import QueryLibraryPlugin Spec.

Section WithCollaborators.
Context {E S : Type} {embeddings : EmbeddingsClient.t E}
  {store : VectorStore.t S}.
Variable COLLECTION_NAME : string.

(** One case per answer of the collaborators. *)
Ltac by_cases purpose p :=
  unfold get_query_suggestions, try_except_Exception, call_get_embedding,
    call_exists, call_query_nearest, log, modify, bind, ret, lift; simpl;
  let v := fresh "v" in
  let rest := fresh "rest" in
  let e := fresh "e" in
  let e' := fresh "e'" in
  let s' := fresh "s'" in
  let s'' := fresh "s''" in
  let result := fresh "result" in
  let Hemb := fresh "Hemb" in
  let Hex := fresh "Hex" in
  let Hq := fresh "Hq" in
  let Hroot := fresh "Hroot" in
  destruct (EmbeddingsClient.get_embedding purpose (embeddings_client p))
    as [[[|v rest]|e] e'] eqn:Hemb; simpl;
  [ destruct (VectorStore.exists_ COLLECTION_NAME (vectorstore p))
      as [[[|]|e] s'] eqn:Hex; simpl
  | destruct (VectorStore.exists_ COLLECTION_NAME (vectorstore p))
      as [[[|]|e] s'] eqn:Hex; simpl;
    [ destruct (VectorStore.query_nearest COLLECTION_NAME v 3 s')
        as [[result|e] s''] eqn:Hq; simpl;
      [ rewrite !PluginFacts.format_results_run; simpl | ]
    | | ]
  | ];
  try match goal with
      | x : exc |- _ => destruct (isinstance_Exception x) eqn:Hroot; simpl
      end;
  rewrite <- ?app_assoc; simpl.

(** Identifies the answers named in the hypotheses with those of the
    case at hand. *)
Ltac same_answers :=
  simplify_eq;
  repeat match goal with
  | H1 : ?x = (_, _), H2 : ?x = (_, _) |- _ => rewrite H1 in H2; simplify_eq
  end.

(** X8. A response never carries both an error and queries: whenever a
    run returns a response with an [error] entry, its [queries] list is
    empty. *)
Theorem error_response_has_no_queries
    (p : t E S) (purpose : string) (keywords : list string)
    (resp : QuerySuggestionResponse.t) (message : string) :
  fst (get_query_suggestions COLLECTION_NAME purpose keywords p) = Ok resp ->
  QuerySuggestionResponse.error resp = Some message ->
  QuerySuggestionResponse.queries resp = [].
Proof.
  by_cases purpose p; intros [= <-]; simpl; try discriminate; reflexivity.
Qed.

(** X9. On success the pipeline returns one [DashboardQuery] per record
    the store delivered, in the store's order and without cutting the
    list down to three; each field is the record's entry under the same
    key, and the empty string where the record has none.  An [id] the
    store supplies is passed on. *)
Theorem success_maps_every_record
    (p : t E S) (purpose : string) (keywords : list string)
    v rest e' s' s'' (result : list (gmap string value)) :
  EmbeddingsClient.get_embedding purpose (embeddings_client p)
  = (Ok (v :: rest), e') ->
  VectorStore.exists_ COLLECTION_NAME (vectorstore p) = (Ok true, s') ->
  VectorStore.query_nearest COLLECTION_NAME v 3 s' = (Ok result, s'') ->
  exists queries,
    fst (get_query_suggestions COLLECTION_NAME purpose keywords p)
    = Ok (QuerySuggestionResponse.mk None queries)
    /\ length queries = length result
    /\ forall (i : nat) (obj : gmap string value),
         result !! i = Some obj ->
         exists q, queries !! i = Some q
           /\ DashboardQuery.id q = default (VStr "") (obj !! "id")
           /\ DashboardQuery.title q = default (VStr "") (obj !! "title")
           /\ DashboardQuery.description q
              = default (VStr "") (obj !! "description")
           /\ DashboardQuery.query q = default (VStr "") (obj !! "query").
Proof.
  intros Hemb0 Hex0 Hq0. exists (dashboard_query_of <$> result).
  by_cases purpose p; same_answers.
  split_and!.
  - reflexivity.
  - now rewrite length_fmap.
  - intros i obj Hi. exists (dashboard_query_of obj).
    rewrite (list_lookup_fmap_Some_2 dashboard_query_of _ _ _ Hi).
    unfold dashboard_query_of, get; simpl.
    split_and!; try reflexivity;
      match goal with |- context [obj !! ?k] => now destruct (obj !! k) end.
Qed.

(** X10. When the embedding call raises, whatever the exception, the
    vector store is not consulted at all: the embedding call is the only
    call of the run and the store is left as it was. *)
Theorem failed_embedding_never_reaches_the_store
    (p : t E S) (purpose : string) (keywords : list string) e e' :
  EmbeddingsClient.get_embedding purpose (embeddings_client p) = (Raise e, e') ->
  let after := snd (get_query_suggestions COLLECTION_NAME purpose keywords p) in
  vectorstore after = vectorstore p
  /\ embeddings_client after = e'
  /\ journal after = journal p ++ [GetEmbedding purpose (Raise e)].
Proof.
  intros Hemb0; cbv zeta.
  by_cases purpose p; same_answers; split_and!; reflexivity.
Qed.


(** X12. What a run logs.  The first record is always the search line
    with the keywords joined by a comma and a space.  A missing
    collection adds nothing (it is not logged as an error); a success
    adds one candidate line per record, in order; an intercepted failure
    of the search adds one error line with [str(e)]. *)
Theorem run_log
    (p : t E S) (purpose : string) (keywords : list string) :
  let run := get_query_suggestions COLLECTION_NAME purpose keywords p in
  let first := InfoSearching purpose (String.concat ", " keywords) in
  (exists more, logger (snd run) = logger p ++ first :: more)
  /\ (forall emb e' s',
        EmbeddingsClient.get_embedding purpose (embeddings_client p)
        = (Ok emb, e') ->
        VectorStore.exists_ COLLECTION_NAME (vectorstore p) = (Ok false, s') ->
        logger (snd run) = logger p ++ [first])
  /\ (forall v rest e' s' s'' result,
        EmbeddingsClient.get_embedding purpose (embeddings_client p)
        = (Ok (v :: rest), e') ->
        VectorStore.exists_ COLLECTION_NAME (vectorstore p) = (Ok true, s') ->
        VectorStore.query_nearest COLLECTION_NAME v 3 s' = (Ok result, s'') ->
        logger (snd run)
        = logger p ++ first :: (candidate_record <$> result))
  /\ (forall v rest e' s' s'' e,
        EmbeddingsClient.get_embedding purpose (embeddings_client p)
        = (Ok (v :: rest), e') ->
        VectorStore.exists_ COLLECTION_NAME (vectorstore p) = (Ok true, s') ->
        VectorStore.query_nearest COLLECTION_NAME v 3 s' = (Raise e, s'') ->
        isinstance_Exception e = true ->
        logger (snd run) = logger p ++ [first; ErrorSearching (exc_str e)]).
Proof.
  cbv zeta.
  by_cases purpose p; split_and!;
    try (eexists; reflexivity);
    intros; same_answers; try reflexivity; congruence.
Qed.

(** X13. The calls of a run follow one fixed protocol: first the
    embedding of the purpose text, then at most one existence check on
    the configured collection, then at most one search on that
    collection with limit 3; nothing else is called, and nothing is
    called twice. *)
Theorem run_follows_the_call_protocol
    (p : t E S) (purpose : string) (keywords : list string) :
  exists new,
    journal (snd (get_query_suggestions COLLECTION_NAME purpose keywords p))
    = journal p ++ new
    /\ (1 <= length new <= 3)%nat
    /\ (exists r, new !! 0%nat = Some (GetEmbedding purpose r))
    /\ (forall ev, new !! 1%nat = Some ev ->
          exists r, ev = Exists COLLECTION_NAME r)
    /\ (forall ev, new !! 2%nat = Some ev ->
          exists v r, ev = QueryNearest COLLECTION_NAME v 3 r).
Proof.
  by_cases purpose p;
    (eexists; split; [reflexivity|]); simpl;
    (split_and!; [lia | lia | eexists; reflexivity
                 | intros ev [= <-]; eauto | intros ev [= <-]; eauto ]).
Qed.

(** The store a run leaves behind is the one it started with, the one
    left by the existence check, or the one left by the search that
    followed the check. *)
Lemma store_after_run (p : t E S) purpose keywords :
  let after :=
    vectorstore (snd (get_query_suggestions COLLECTION_NAME purpose keywords p)) in
  after = vectorstore p
  \/ after = snd (VectorStore.exists_ COLLECTION_NAME (vectorstore p))
  \/ exists v,
       after
       = snd (VectorStore.query_nearest COLLECTION_NAME v 3
                (snd (VectorStore.exists_ COLLECTION_NAME (vectorstore p)))).
Proof.
  cbv zeta. by_cases purpose p;
    first
      [ now left
      | right; now left
      | right; right; eexists;
        match goal with
        | Hq : VectorStore.query_nearest _ _ _ _ = _ |- _ => now rewrite Hq
        end ].
Qed.

End WithCollaborators.

End PluginBehaviour.

Module EndToEndBehaviour.
Import Weaviate QueryLibraryPlugin Spec.

Section WithClient.
Context {E C H : Type} {embeddings : EmbeddingsClient.t E}
  {weaviate : Client C H}.
Variable COLLECTION_NAME : string.

(** X14. Asking for suggestions never writes to the database: for every
    client and every embedding behaviour, a run of the pipeline on the
    adapter leaves the client as it was, and none of the client calls it
    causes is a creation, a deletion, an insertion or a release. *)
Theorem suggestions_never_write_to_the_database
    (p : QueryLibraryPlugin.t E (WeaviateAdapter.t C H))
    (purpose : string) (keywords : list string) :
  let before := vectorstore p in
  let after :=
    vectorstore (snd (get_query_suggestions COLLECTION_NAME purpose keywords p)) in
  WeaviateAdapter.client after = WeaviateAdapter.client before
  /\ exists new,
       WeaviateAdapter.journal after = WeaviateAdapter.journal before ++ new
       /\ Forall (fun c => is_mutation c = false) new.
Proof.
  cbv zeta.
  destruct (PluginBehaviour.store_after_run COLLECTION_NAME p purpose keywords)
    as [->|[->|[v ->]]].
  - split; [reflexivity|]. exists []. now rewrite app_nil_r.
  - split; [reflexivity|]. eexists [_]. split; [reflexivity|].
    repeat constructor.
  - destruct (AdapterBehaviour.query_nearest_reads_only
                (snd (WeaviateAdapter.exists_ COLLECTION_NAME (vectorstore p)))
                COLLECTION_NAME v 3) as (Hc & new & Hj & Hnew).
    split; [exact Hc|].
    exists (CollectionsExists COLLECTION_NAME :: new). split.
    + etransitivity; [exact Hj|]. simpl. now rewrite <- app_assoc.
    + constructor; [reflexivity|exact Hnew].
Qed.

End WithClient.

End EndToEndBehaviour.

(** ** The provider registry *)

Module ProviderFacts.
Import Providers.

Lemma getitem_setitem_eq {V} (d : PyDict.t V) k v :
  PyDict.getitem (PyDict.setitem d k v) k = Some v.
Proof.
  induction d as [|[k' v'] d IH]; simpl.
  - now rewrite String.eqb_refl.
  - destruct (String.eqb k' k) eqn:Hk; simpl; rewrite Hk; [reflexivity|exact IH].
Qed.

Lemma getitem_setitem_ne {V} (d : PyDict.t V) k k' v :
  k <> k' ->
  PyDict.getitem (PyDict.setitem d k v) k' = PyDict.getitem d k'.
Proof.
  intros Hne. induction d as [|[k0 v0] d IH]; simpl.
  - destruct (String.eqb k k') eqn:Hk; [|reflexivity].
    apply String.eqb_eq in Hk. contradiction.
  - destruct (String.eqb k0 k) eqn:Hk; simpl.
    + apply String.eqb_eq in Hk; subst k0.
      destruct (String.eqb k k') eqn:Hk'; [|reflexivity].
      apply String.eqb_eq in Hk'. contradiction.
    + now rewrite IH.
Qed.

Lemma getitem_Some_iff_key {V} (d : PyDict.t V) k :
  is_Some (PyDict.getitem d k) <-> k ∈ PyDict.keys d.
Proof.
  unfold PyDict.keys. induction d as [|[k' v'] d IH]; simpl.
  - split; [intros [x Hx]; discriminate|]. intros Hin. inversion Hin.
  - rewrite elem_of_cons. destruct (String.eqb k' k) eqn:Hk.
    + apply String.eqb_eq in Hk. split; [now left|eauto].
    + apply String.eqb_neq in Hk. rewrite IH.
      split; [now right|]. intros [->|Hin]; [contradiction|exact Hin].
Qed.

Lemma contains_true_iff_key {V} (d : PyDict.t V) k :
  PyDict.contains d k = true <-> k ∈ PyDict.keys d.
Proof.
  rewrite <- getitem_Some_iff_key. unfold PyDict.contains.
  destruct (PyDict.getitem d k); split; eauto; try discriminate.
  intros [x Hx]; discriminate.
Qed.

Lemma contains_false_iff_not_key {V} (d : PyDict.t V) k :
  PyDict.contains d k = false <-> k ∉ PyDict.keys d.
Proof.
  rewrite <- contains_true_iff_key.
  destruct (PyDict.contains d k); split; congruence.
Qed.

Lemma keys_setitem_present {V} (d : PyDict.t V) k v :
  k ∈ PyDict.keys d -> PyDict.keys (PyDict.setitem d k v) = PyDict.keys d.
Proof.
  unfold PyDict.keys. induction d as [|[k' v'] d IH]; simpl.
  - intros Hin. inversion Hin.
  - rewrite elem_of_cons. intros Hin.
    destruct (String.eqb k' k) eqn:Hk; simpl; [reflexivity|].
    apply String.eqb_neq in Hk. f_equal. apply IH.
    destruct Hin as [->|Hin]; [contradiction|exact Hin].
Qed.

Lemma keys_setitem_absent {V} (d : PyDict.t V) k v :
  k ∉ PyDict.keys d ->
  PyDict.keys (PyDict.setitem d k v) = PyDict.keys d ++ [k].
Proof.
  unfold PyDict.keys. induction d as [|[k' v'] d IH]; simpl.
  - reflexivity.
  - rewrite not_elem_of_cons. intros [Hne Hnin].
    destruct (String.eqb k' k) eqn:Hk; simpl.
    + apply String.eqb_eq in Hk. congruence.
    + f_equal. now apply IH.
Qed.

Lemma keys_setitem_NoDup {V} (d : PyDict.t V) k v :
  NoDup (PyDict.keys d) -> NoDup (PyDict.keys (PyDict.setitem d k v)).
Proof.
  intros Hd. destruct (decide (k ∈ PyDict.keys d)) as [Hin|Hnin].
  - now rewrite keys_setitem_present.
  - rewrite keys_setitem_absent by exact Hnin.
    apply NoDup_app. split_and!; [exact Hd| |apply NoDup_singleton].
    intros x Hx Hx'. apply list_elem_of_singleton in Hx'. now subst.
Qed.

Section WithSubclasses.
Context {K U : Type} {subclasses : Subclasses K U}.

Lemma get_provider_registered (w : World K) name cls config :
  PyDict.getitem (PROVIDER_REGISTRY w) name = Some cls ->
  get_provider name config w = (call_class cls config, w).
Proof.
  intros Hget. unfold get_provider, PyDict.contains. now rewrite Hget.
Qed.

(** X15. [get_provider] accepts exactly the names [list_providers]
    returns.  For a listed name it calls the class registered under it
    with the given configuration; for any other name it raises a
    [ValueError] whose message quotes the name and lists the registered
    names in registration order, separated by a comma and a space.  The
    registry is left unchanged in both cases, and no [KeyError] escapes
    from the dictionary access. *)
Theorem get_provider_accepts_exactly_the_listed_names
    (w : World K) (name : string) (config : gmap string value) :
  let names := PyDict.keys (PROVIDER_REGISTRY w) in
  list_providers w = (Ok names, w)
  /\ (name ∈ names ->
        exists cls,
          PyDict.getitem (PROVIDER_REGISTRY w) name = Some cls
          /\ get_provider name config w = (call_class cls config, w))
  /\ (name ∉ names ->
        get_provider name config w
        = (Raise (ValueError
                    ("Unknown provider '" ++ name
                       ++ "'. Available providers: "
                       ++ String.concat ", " names)%string), w)).
Proof.
  cbv zeta. split_and!.
  - reflexivity.
  - intros Hin. apply getitem_Some_iff_key in Hin as [cls Hcls].
    exists cls. split; [exact Hcls|]. now apply get_provider_registered.
  - intros Hnin. apply contains_false_iff_not_key in Hnin.
    unfold get_provider. now rewrite Hnin.
Qed.

(** X16. Registration followed by look-up: after
    [register_provider name cls], [get_provider name] calls [cls], also
    when [name] was registered to another class before (the new class
    replaces the old one); and for every other registered name
    [get_provider] answers as it did before. *)
Theorem register_then_get_provider
    (w : World K) (name : string) (cls : provider_class K)
    (config : gmap string value) :
  let w' := snd (register_provider name cls w) in
  get_provider name config w' = (call_class cls config, w')
  /\ forall other,
       other <> name ->
       other ∈ PyDict.keys (PROVIDER_REGISTRY w) ->
       fst (get_provider other config w') = fst (get_provider other config w).
Proof.
  cbv zeta. split.
  - apply get_provider_registered. simpl. apply getitem_setitem_eq.
  - intros other Hne Hin.
    apply getitem_Some_iff_key in Hin as [cls' Hcls'].
    rewrite (get_provider_registered w other cls' config Hcls').
    rewrite (get_provider_registered _ other cls' config); [reflexivity|].
    simpl. rewrite getitem_setitem_ne by congruence. exact Hcls'.
Qed.

(** X17. What [register_provider] does to the listing: a name that is
    already listed keeps its place and the list is unchanged; a new name
    is appended at the end.  Each call logs one line naming the
    provider. *)
Theorem register_provider_listing
    (w : World K) (name : string) (cls : provider_class K) :
  let names := PyDict.keys (PROVIDER_REGISTRY w) in
  let w' := snd (register_provider name cls w) in
  fst (register_provider name cls w) = Ok tt
  /\ (name ∈ names -> fst (list_providers w') = Ok names)
  /\ (name ∉ names -> fst (list_providers w') = Ok (names ++ [name]))
  /\ logged w' = logged w ++ [("Registered provider: " ++ name)%string].
Proof.
  cbv zeta. split_and!; try reflexivity.
  - intros Hin. simpl. now rewrite keys_setitem_present.
  - intros Hnin. simpl. now rewrite keys_setitem_absent.
Qed.

Lemma after_registrations_NoDup calls (w : World K) :
  NoDup (PyDict.keys (PROVIDER_REGISTRY w)) ->
  NoDup (PyDict.keys (PROVIDER_REGISTRY (after_registrations calls w))).
Proof.
  revert w. induction calls as [|[n c] calls IH]; intros w Hw; simpl.
  - exact Hw.
  - apply IH. simpl. now apply keys_setitem_NoDup.
Qed.

(** X18. However many providers are registered, and in whatever order
    and with whatever repetitions, [list_providers] never lists a name
    twice, and the built-in ["azureopenai"] stays listed first. *)
Theorem list_providers_has_no_duplicates
    (calls : list (string * provider_class K)) :
  exists names,
    fst (list_providers (after_registrations calls initial)) = Ok names
    /\ NoDup names
    /\ head names = Some "azureopenai".
Proof.
  eexists. split; [reflexivity|]. split.
  - apply after_registrations_NoDup. simpl. apply NoDup_singleton.
  - assert (Hhead : forall cs (w : World K),
              head (PyDict.keys (PROVIDER_REGISTRY w)) = Some "azureopenai" ->
              head (PyDict.keys
                      (PROVIDER_REGISTRY (after_registrations cs w)))
              = Some "azureopenai").
    { induction cs as [|[n c] cs IH]; intros w Hw; simpl; [exact Hw|].
      apply IH. simpl.
      destruct (PROVIDER_REGISTRY w) as [|[k0 v0] d]; [discriminate Hw|].
      simpl in *. now destruct (String.eqb k0 n). }
    now apply Hhead.
Qed.

End WithSubclasses.

Section WithPydanticAI.
Context {P Mdl : Type} {pydantic_ai : PydanticAI P Mdl}.

(** X19. [create_model] validates first: with an [api_key] that is
    [None] or the empty string it raises the [ValueError] of
    [validate_config] and calls neither constructor.  With any other key
    it builds the Azure provider from the endpoint, the key and API
    version [2024-12-01-preview], and then the chat model, whose name is
    always [gpt-5-mini]: the [model_id] and the keyword arguments passed
    in play no part. *)
Theorem create_model_validates_then_builds_fixed_model
    (self : AzureOpenAIProvider.t) (model_id : string)
    (kwargs : gmap string value) :
  (AzureOpenAIProvider.api_key self = VNone
   \/ AzureOpenAIProvider.api_key self = VStr "" ->
   AzureOpenAIProvider.create_model self model_id kwargs
   = Raise (ValueError
              "OpenAI provider requires api_key. Set ORCHESTRATOR_API_KEY or CYPHER_API_KEY in .env file."))
  /\ (forall key,
        AzureOpenAIProvider.api_key self = VStr key -> key <> "" ->
        AzureOpenAIProvider.create_model self model_id kwargs
        = match AzureProvider (AzureOpenAIProvider.endpoint self)
                  "2024-12-01-preview" (VStr key) with
          | Ok provider => OpenAIChatModel "gpt-5-mini" provider
          | Raise e => Raise e
          end).
Proof.
  unfold AzureOpenAIProvider.create_model, AzureOpenAIProvider.validate_config.
  split.
  - intros [-> | ->]; reflexivity.
  - intros key -> Hkey; simpl.
    destruct (String.eqb key "") eqn:Hk.
    + apply String.eqb_eq in Hk. contradiction.
    + reflexivity.
Qed.

End WithPydanticAI.

Section GetThenCreate.
Context {K U P Mdl : Type} {subclasses : Subclasses K U}
  {pydantic_ai : PydanticAI P Mdl}.


End GetThenCreate.

End ProviderFacts.

(** ** The further statements on the concrete collaborators *)

Module MoreScenarios.
Import Weaviate WeaviateAdapter Spec InMemory.

Lemma query_nearest_on_absent_collection_witness :
  fst (query_nearest "absent" question 3 (adapter sample_db))
  = Raise no_such_collection
  /\ fst (query_nearest (weaviate := Faulty.client (Faulty.mkFaults false false true))
            "queries" question 3 (adapter sample_db))
     = Raise Faulty.connection_refused.
Proof.
  destruct (AdapterBehaviour.query_nearest_forwards_and_lets_the_client_raise
              (adapter sample_db) "absent" question 3) as (_ & Hsearch & _).
  destruct (AdapterBehaviour.query_nearest_forwards_and_lets_the_client_raise
              (weaviate := Faulty.client (Faulty.mkFaults false false true))
              (adapter sample_db) "queries" question 3) as (Hget & _ & _).
  split.
  - now rewrite (Hsearch "absent" no_such_collection) by reflexivity.
  - now rewrite (Hget Faulty.connection_refused) by reflexivity.
Defined.

Lemma create_collection_passes_schema_witness :
  journal (snd (create_collection "ranked"
                  (Some [mkProperty "title" TEXT; mkProperty "rank" INT])
                  (adapter sample_db)))
  = [CollectionsExists "ranked";
     CollectionsCreate "ranked" Vectorizer_none
       [mkProperty "title" TEXT; mkProperty "rank" INT]].
Proof.
  rewrite (AdapterBehaviour.create_collection_passes_schema_on
             (adapter sample_db) "ranked"
             [mkProperty "title" TEXT; mkProperty "rank" INT])
    by reflexivity.
  reflexivity.
Defined.

Lemma create_and_delete_twice_witness :
  journal (snd (create_collection "fresh" None
                  (snd (create_collection "fresh" None (adapter sample_db)))))
  = [CollectionsExists "fresh";
     CollectionsCreate "fresh" Vectorizer_none default_properties;
     CollectionsExists "fresh"]
  /\ journal (snd (delete_collection "queries"
                     (snd (delete_collection "queries" (adapter sample_db)))))
     = [CollectionsExists "queries"; CollectionsDelete "queries";
        CollectionsExists "queries"].
Proof.
  destruct (AdapterBehaviour.create_and_delete_twice_act_once
              (adapter sample_db) "fresh" None) as [Hcreate _].
  destruct (AdapterBehaviour.create_and_delete_twice_act_once
              (adapter sample_db) "queries" None) as [_ Hdelete].
  split.
  - erewrite Hcreate by reflexivity. reflexivity.
  - erewrite Hdelete by reflexivity. reflexivity.
Defined.

Lemma failed_existence_check_witness :
  let unreachable := Faulty.client (Faulty.mkFaults true false false) in
  insert_many (weaviate := unreachable) "queries" [titled_item]
              (adapter sample_db)
  = (Raise Faulty.connection_refused,
     mk sample_db [CollectionsExists "queries"]).
Proof.
  cbv zeta.
  edestruct (AdapterBehaviour.failed_existence_check_stops_the_operation
               (weaviate := Faulty.client (Faulty.mkFaults true false false))
               (adapter sample_db) "queries" None [titled_item]
               Faulty.connection_refused) as (_ & _ & Hinsert).
  - reflexivity.
  - exact Hinsert.
Defined.

Lemma insert_many_failed_creation_witness :
  insert_many (weaviate := Faulty.client (Faulty.mkFaults false true false))
              "fresh" [titled_item] (adapter sample_db)
  = (Raise Faulty.connection_refused,
     mk sample_db
        [CollectionsExists "fresh"; CollectionsExists "fresh";
         CollectionsCreate "fresh" Vectorizer_none default_properties])
  /\ fst (insert_many
            (weaviate := Faulty.client (Faulty.mkFaults false false true))
            "queries" [titled_item] (adapter sample_db))
     = Raise Faulty.connection_refused.
Proof.
  destruct (AdapterBehaviour.insert_many_writes_nothing_after_a_failure
              (weaviate := Faulty.client (Faulty.mkFaults false true false))
              (adapter sample_db) "fresh" [titled_item]) as (Hcreate & _ & _).
  destruct (AdapterBehaviour.insert_many_writes_nothing_after_a_failure
              (weaviate := Faulty.client (Faulty.mkFaults false false true))
              (adapter sample_db) "queries" [titled_item]) as (_ & Hget & _).
  split.
  - apply Hcreate; reflexivity.
  - now rewrite (Hget Faulty.connection_refused) by reflexivity.
Defined.

Lemma prepared_item_reads_back_witness :
  search_result (mkObject (item_properties (prepare titled_item)) Missing)
    !! "title" = Some (VStr "vm count")
  /\ search_result (mkObject (item_properties (prepare titled_item)) Missing)
       !! "query" = Some (VStr "").
Proof.
  destruct (AdapterBehaviour.prepared_item_reads_back titled_item Missing
              "title" (or_introl eq_refl)) as [Htitle _].
  destruct (AdapterBehaviour.prepared_item_reads_back titled_item Missing
              "query" (or_intror (or_intror eq_refl))) as [Hquery _].
  split; [exact Htitle | exact Hquery].
Defined.

Lemma error_response_has_no_queries_witness :
  exists resp,
    fst (QueryLibraryPlugin.get_query_suggestions
           (embeddings := answering [question])
           "queries" Canned.purpose Canned.keywords (plugin empty_db)) = Ok resp
    /\ QuerySuggestionResponse.queries resp = [].
Proof.
  destruct (fst (QueryLibraryPlugin.get_query_suggestions
                   (embeddings := answering [question])
                   "queries" Canned.purpose Canned.keywords (plugin empty_db)))
    as [resp|e] eqn:Hrun; [|vm_compute in Hrun; discriminate Hrun].
  exists resp. split; [reflexivity|].
  eapply (PluginBehaviour.error_response_has_no_queries
            (embeddings := answering [question])
            "queries" (plugin empty_db) Canned.purpose Canned.keywords resp).
  - exact Hrun.
  - vm_compute in Hrun. injection Hrun as <-. reflexivity.
Defined.

Lemma success_maps_every_record_witness :
  exists queries q,
    fst (QueryLibraryPlugin.get_query_suggestions
           (embeddings := answering [question])
           "queries" Canned.purpose Canned.keywords Canned.plugin)
    = Ok (QuerySuggestionResponse.mk None queries)
    /\ length queries = 4%nat
    /\ queries !! 0%nat = Some q
    /\ DashboardQuery.id q = VStr "q-1"
    /\ DashboardQuery.description q = VStr "".
Proof.
  edestruct (PluginBehaviour.success_maps_every_record
               (embeddings := answering [question])
               "queries" Canned.plugin Canned.purpose Canned.keywords)
    as (queries & Hrun & Hlen & Hfields).
  - reflexivity.
  - reflexivity.
  - reflexivity.
  - edestruct (Hfields 0%nat) as (q & Hq & Hid & _ & Hdescr & _);
      [reflexivity|].
    exists queries, q. split_and!; [exact Hrun|exact Hlen|exact Hq| | ].
    + rewrite Hid. reflexivity.
    + rewrite Hdescr. reflexivity.
Defined.

Lemma failed_embedding_witness :
  QueryLibraryPlugin.vectorstore
    (snd (QueryLibraryPlugin.get_query_suggestions
            (embeddings := raising cancelled_error)
            "queries" Canned.purpose Canned.keywords (plugin sample_db)))
  = adapter sample_db.
Proof.
  edestruct (PluginBehaviour.failed_embedding_never_reaches_the_store
               (embeddings := raising cancelled_error)
               "queries" (plugin sample_db) Canned.purpose Canned.keywords)
    as (Hstore & _).
  - reflexivity.
  - exact Hstore.
Defined.


Lemma run_log_witness :
  QueryLibraryPlugin.logger
    (snd (QueryLibraryPlugin.get_query_suggestions
            (embeddings := answering [question])
            "queries" Canned.purpose Canned.keywords (plugin empty_db)))
  = [QueryLibraryPlugin.InfoSearching Canned.purpose "subscriptions, count"]
  /\ length
       (QueryLibraryPlugin.logger
          (snd (QueryLibraryPlugin.get_query_suggestions
                  (embeddings := answering [question])
                  "queries" Canned.purpose Canned.keywords Canned.plugin))) = 5%nat.
Proof.
  destruct (PluginBehaviour.run_log (embeddings := answering [question])
              "queries" (plugin empty_db) Canned.purpose Canned.keywords)
    as (_ & Hmissing & _).
  destruct (PluginBehaviour.run_log (embeddings := answering [question])
              "queries" Canned.plugin Canned.purpose Canned.keywords)
    as (_ & _ & Hsuccess & _).
  split.
  - erewrite Hmissing by reflexivity. reflexivity.
  - erewrite Hsuccess by reflexivity. reflexivity.
Defined.

Import Providers ProvidersInMemory.

Lemma get_provider_unknown_name_witness :
  fst (get_provider "openai" with_key fresh_module)
  = Raise (ValueError
             "Unknown provider 'openai'. Available providers: azureopenai")
  /\ exists p,
       fst (get_provider "azureopenai" with_key fresh_module)
       = Ok (AzureOpenAIProvider_instance p).
Proof.
  destruct (ProviderFacts.get_provider_accepts_exactly_the_listed_names
              fresh_module "openai" with_key) as (_ & _ & Hunknown).
  destruct (ProviderFacts.get_provider_accepts_exactly_the_listed_names
              fresh_module "azureopenai" with_key) as (_ & Hknown & _).
  split.
  - rewrite Hunknown; [reflexivity|].
    intros Hin. apply list_elem_of_singleton in Hin. discriminate Hin.
  - destruct Hknown as (cls & Hcls & Hrun); [apply list_elem_of_singleton; reflexivity|].
    rewrite Hrun. simpl in Hcls. injection Hcls as <-. simpl. eauto.
Defined.

Lemma register_then_get_provider_witness :
  let w' := snd (register_provider "local" (Subclass LocalProvider)
                                   fresh_module) in
  fst (get_provider "local" with_key w') = Ok (Subclass_instance with_key)
  /\ fst (get_provider "azureopenai" with_key w')
     = fst (get_provider "azureopenai" with_key fresh_module).
Proof.
  cbv zeta.
  destruct (ProviderFacts.register_then_get_provider
              fresh_module "local" (Subclass LocalProvider) with_key)
    as [Hnew Hold].
  split.
  - rewrite Hnew. reflexivity.
  - apply Hold; [discriminate|]. apply list_elem_of_singleton. reflexivity.
Defined.

Lemma register_provider_listing_witness :
  fst (list_providers
         (snd (register_provider "azureopenai" (Subclass LocalProvider)
                                 fresh_module)))
  = Ok ["azureopenai"]
  /\ fst (list_providers
            (snd (register_provider "local" (Subclass LocalProvider)
                                    fresh_module)))
     = Ok ["azureopenai"; "local"].
Proof.
  destruct (ProviderFacts.register_provider_listing
              fresh_module "azureopenai" (Subclass LocalProvider))
    as (_ & Hsame & _).
  destruct (ProviderFacts.register_provider_listing
              fresh_module "local" (Subclass LocalProvider))
    as (_ & _ & Hnew & _).
  split.
  - apply Hsame. apply list_elem_of_singleton. reflexivity.
  - apply Hnew. intros Hin. apply list_elem_of_singleton in Hin.
    discriminate Hin.
Defined.

Lemma create_model_witness :
  AzureOpenAIProvider.create_model
    (AzureOpenAIProvider.init VNone (VStr "https://example") ∅) "gpt-4o" ∅
  = Raise (ValueError AzureOpenAIProvider.missing_api_key_message)
  /\ AzureOpenAIProvider.create_model
       (AzureOpenAIProvider.init (VStr "secret") (VStr "https://example") ∅)
       "gpt-4o" ∅
     = Ok (mkChatModel "gpt-5-mini"
             (mkAzureSettings (VStr "https://example") "2024-12-01-preview"
                              (VStr "secret"))).
Proof.
  destruct (ProviderFacts.create_model_validates_then_builds_fixed_model
              (AzureOpenAIProvider.init VNone (VStr "https://example") ∅)
              "gpt-4o" ∅) as [Hmissing _].
  destruct (ProviderFacts.create_model_validates_then_builds_fixed_model
              (AzureOpenAIProvider.init (VStr "secret") (VStr "https://example") ∅)
              "gpt-4o" ∅) as [_ Hbuilt].
  split.
  - apply Hmissing. now left.
  - rewrite (Hbuilt "secret" eq_refl); [reflexivity|discriminate].
Defined.


End MoreScenarios.
